(** * Azure provisioning chatbot: slot extractor, dialogue agent, confirmation

    A shallow embedding of [src/models.py], [src/nlp_processor.py],
    [src/agent.py] and the message handler of [src/bot.py], with the
    properties of the conversation engine stated over it.

    Conventions.
    - A Python [str] is a [string], one character per code point, for texts
      whose code points are below 256.  The few literals of the source that
      go beyond that range (decorations of message templates) are written as
      the bytes they have in the source file.
    - A [dict] is a [gmap]; a [dict] whose iteration order the code relies
      on (the keyword tables) is an association list in insertion order.
    - Methods that read the clock, touch the context store or call a
      collaborator run in the monad [M]: a state over [World] in which a
      Python exception is an explicit result. *)

From Stdlib Require Import ZArith NArith Ascii String.
From stdpp Require Import base option list strings gmap fin_maps pretty.

Local Open Scope string_scope.

(** ** Python strings *)

Module PyStr.

Definition code (c : ascii) : N := N_of_ascii c.

Definition between (lo hi : N) (c : ascii) : bool :=
  ((lo <=? code c) && (code c <=? hi))%N.

Definition is_ascii_upper (c : ascii) : bool := between 65 90 c.
Definition is_ascii_lower (c : ascii) : bool := between 97 122 c.
Definition is_digit (c : ascii) : bool := between 48 57 c.

(** Characters below 256 that [str.lower] changes: A-Z and the Latin-1
    capitals (U+00C0..U+00DE without the multiplication sign U+00D7); each
    moves up by 32. *)
Definition is_upper (c : ascii) : bool :=
  is_ascii_upper c || between 192 214 c || between 216 222 c.

Definition char_lower (c : ascii) : ascii :=
  if is_upper c then ascii_of_N (code c + 32) else c.

(** [str.upper] and [str.title] are applied by the source to ASCII
    literals only (size codes, enum values, region keys). *)
Definition char_upper (c : ascii) : ascii :=
  if is_ascii_lower c then ascii_of_N (code c - 32) else c.

Fixpoint smap (f : ascii -> ascii) (s : string) : string :=
  match s with
  | EmptyString => EmptyString
  | String c s' => String (f c) (smap f s')
  end.

Definition lower : string -> string := smap char_lower.
Definition upper : string -> string := smap char_upper.

(** [s.replace(old, new)] for one-character [old] and [new]. *)
Definition replace_char (old new : ascii) : string -> string :=
  smap (fun c => if Ascii.eqb c old then new else c).

(** [s.title()]: a letter that follows a letter is lower-cased, any other
    letter is upper-cased. *)
Fixpoint title_from (prev_cased : bool) (s : string) : string :=
  match s with
  | EmptyString => EmptyString
  | String c s' =>
      let cased := is_ascii_upper c || is_ascii_lower c in
      String (if prev_cased then char_lower c else char_upper c)
             (title_from cased s')
  end.

Definition title : string -> string := title_from false.

Fixpoint starts_with (p s : string) : bool :=
  match p, s with
  | EmptyString, _ => true
  | String a p', String b s' => Ascii.eqb a b && starts_with p' s'
  | String _ _, EmptyString => false
  end.

(** [needle in hay]. *)
Fixpoint str_in (needle hay : string) : bool :=
  starts_with needle hay ||
  match hay with
  | EmptyString => false
  | String _ hay' => str_in needle hay'
  end.

(** [x in [s1, ..., sn]] for strings. *)
Definition one_of (x : string) (l : list string) : bool :=
  existsb (String.eqb x) l.

(** [any(word in text for word in words)]. *)
Definition any_in (words : list string) (text : string) : bool :=
  existsb (fun w => str_in w text) words.

(** [sep.join(l)]. *)
Fixpoint join (sep : string) (l : list string) : string :=
  match l with
  | [] => EmptyString
  | [x] => x
  | x :: l' => x +:+ sep +:+ join sep l'
  end.

Fixpoint take_str (n : nat) (s : string) : string :=
  match n, s with
  | S n', String c s' => String c (take_str n' s')
  | _, _ => EmptyString
  end.

(** The default of [sys.get_int_max_str_digits()]; the code never changes
    it. *)
Definition int_max_str_digits : nat := 4300.

(** The value of a string of decimal digits. *)
Definition decimal_value (s : string) : N :=
  (fix go (acc : N) (s : string) : N :=
     match s with
     | EmptyString => acc
     | String c s' => go (acc * 10 + (code c - 48))%N s'
     end) 0%N s.

(** [int(s)] for a string of decimal digits.  CPython refuses a string of
    more than [int_max_str_digits] digits (leading zeros count) with a
    [ValueError]; [None] stands for it, and [int_limit_message s] is its
    text. *)
Definition int_of_digits (s : string) : option N :=
  if (int_max_str_digits <? String.length s)%nat then None
  else Some (decimal_value s).

Definition int_limit_message (s : string) : string :=
  "Exceeds the limit (" +:+ pretty int_max_str_digits
    +:+ " digits) for integer string conversion: value has "
    +:+ pretty (String.length s)
    +:+ " digits; use sys.set_int_max_str_digits() to increase the limit".

Definition dquote : string := String (ascii_of_N 34) EmptyString.
Definition newline : string := String (ascii_of_N 10) EmptyString.

End PyStr.

(** ** The fragment of [re] the source uses *)

Module Re.
Import PyStr.

(** [\s], [\w] on code points below 256. *)
Definition is_space (c : ascii) : bool :=
  between 9 13 c || between 28 32 c
  || N.eqb (code c) 133 || N.eqb (code c) 160.

Definition is_word (c : ascii) : bool :=
  is_ascii_lower c || is_ascii_upper c || is_digit c
  || N.eqb (code c) 95
  || N.eqb (code c) 170 || between 178 179 c || N.eqb (code c) 181
  || between 185 186 c || between 188 190 c
  || between 192 214 c || between 216 246 c || between 248 255 c.

(** [[a-zA-Z0-9\-_]]; with [re.IGNORECASE] the class holds the same
    characters below 256. *)
Definition is_name_char (c : ascii) : bool :=
  is_ascii_lower c || is_ascii_upper c || is_digit c
  || N.eqb (code c) 45 || N.eqb (code c) 95.

Inductive regex : Type :=
| Eps : regex
| Chr : (ascii -> bool) -> regex          (* one character of a class *)
| Cat : regex -> regex -> regex
| Alt : regex -> regex -> regex           (* r1|r2, r1 tried first *)
| Rep : nat -> (ascii -> bool) -> regex   (* greedy, at least n of a class *)
| Grp : regex -> regex.                   (* the capturing group read by group(1) *)

Definition Opt (r : regex) : regex := Alt r Eps.

(** A literal word; [ci] is [re.IGNORECASE] (the literals are lower case). *)
Fixpoint lit (ci : bool) (s : string) : regex :=
  match s with
  | EmptyString => Eps
  | String a s' =>
      Cat (Chr (fun c => Ascii.eqb (if ci then char_lower c else c) a))
          (lit ci s')
  end.

(** Greedy repetition with backtracking: the longest run is tried first,
    then shorter ones, never fewer than [n] characters. *)
Fixpoint rep_greedy {A} (p : ascii -> bool) (n : nat) (s : string)
    (k : string -> option A) : option A :=
  let stop := match n with O => k s | S _ => None end in
  match s with
  | String c s' =>
      if p c then
        match rep_greedy p (Nat.pred n) s' k with
        | Some r => Some r
        | None => stop
        end
      else stop
  | EmptyString => stop
  end.

(** Backtracking matcher in continuation-passing style; [g] is the text
    of the capturing group so far. *)
Fixpoint rmatch {A} (r : regex) (s : string) (g : option string)
    (k : string -> option string -> option A) : option A :=
  match r with
  | Eps => k s g
  | Chr p =>
      match s with
      | String c s' => if p c then k s' g else None
      | EmptyString => None
      end
  | Cat r1 r2 => rmatch r1 s g (fun s1 g1 => rmatch r2 s1 g1 k)
  | Alt r1 r2 =>
      match rmatch r1 s g k with
      | Some x => Some x
      | None => rmatch r2 s g k
      end
  | Rep n p => rep_greedy p n s (fun s1 => k s1 g)
  | Grp r1 =>
      rmatch r1 s g
        (fun s1 _ => k s1 (Some (take_str (String.length s - String.length s1) s)))
  end.

(** [re.search(r, s)]: the match at the leftmost position that has one;
    the result is the text of group 1. *)
Fixpoint search (r : regex) (s : string) : option (option string) :=
  match rmatch r s None (fun _ g => Some g) with
  | Some g => Some g
  | None =>
      match s with
      | EmptyString => None
      | String _ s' => search r s'
      end
  end.

(** [m.group(1)] of a successful search; in every pattern of the source the
    group takes part in each match. *)
Definition search_group1 (r : regex) (s : string) : option string :=
  match search r s with
  | Some (Some g) => Some g
  | _ => None
  end.

End Re.

(** ** Data model ([src/models.py]) *)

(** A naive [datetime]: microseconds since 0001-01-01T00:00:00. *)
Definition datetime : Type := Z.

Module Datetime.
Local Open Scope Z_scope.

Definition us_per_hour : Z := 3600000000.

Definition hour (t : datetime) : Z := (t / us_per_hour) mod 24.

(** [t - timedelta(hours=h)], used to describe ages. *)
Definition hours_before (h : Z) (t : datetime) : datetime := t - h * us_per_hour.

End Datetime.

Inductive ResourceType : Type :=
| VIRTUAL_MACHINE | STORAGE_ACCOUNT | WEB_APP | SQL_DATABASE | COSMOS_DB
| VIRTUAL_NETWORK | LOAD_BALANCER | CONTAINER_INSTANCE | AKS_CLUSTER
| COGNITIVE_SERVICE | MACHINE_LEARNING_WORKSPACE.

Definition ResourceType_value (t : ResourceType) : string :=
  match t with
  | VIRTUAL_MACHINE => "virtual_machine"
  | STORAGE_ACCOUNT => "storage_account"
  | WEB_APP => "web_app"
  | SQL_DATABASE => "sql_database"
  | COSMOS_DB => "cosmos_db"
  | VIRTUAL_NETWORK => "virtual_network"
  | LOAD_BALANCER => "load_balancer"
  | CONTAINER_INSTANCE => "container_instance"
  | AKS_CLUSTER => "aks_cluster"
  | COGNITIVE_SERVICE => "cognitive_service"
  | MACHINE_LEARNING_WORKSPACE => "machine_learning_workspace"
  end.

Inductive VMType : Type := WINDOWS | LINUX.

Inductive StorageAccountType : Type :=
| STANDARD_LRS | STANDARD_GRS | STANDARD_RAGRS | PREMIUM_LRS.

Inductive WebAppRuntime : Type := NODE_JS | PYTHON | DOTNET | JAVA | PHP | RUBY.

Inductive ProvisioningStatus : Type :=
| PENDING | IN_PROGRESS | COMPLETED | FAILED | CANCELLED.

#[global] Instance ResourceType_eq_dec : EqDecision ResourceType.
Proof. solve_decision. Defined.
#[global] Instance ProvisioningStatus_eq_dec : EqDecision ProvisioningStatus.
Proof. solve_decision. Defined.

(** The values stored in a request's [parameters] dict ([Dict[str, Any]]). *)
Inductive ParamValue : Type :=
| PVm : VMType -> ParamValue
| PStorage : StorageAccountType -> ParamValue
| PRuntime : WebAppRuntime -> ParamValue
| PStr : string -> ParamValue.

Record ResourceRequest : Type := mkResourceRequest {
  resource_type : ResourceType;
  name : string;
  location : option string;
  resource_group : option string;
  tags : option (gmap string string);
  parameters : gmap string ParamValue;
  user_id : string;
  request_id : option string;
  timestamp : datetime
}.

Record ProvisioningResponse : Type := mkProvisioningResponse {
  resp_request_id : string;
  status : ProvisioningStatus;
  resource_id : option string;
  resource_name : string;
  resp_resource_type : ResourceType;
  resp_location : string;
  resp_resource_group : string;
  message : string;
  error_details : option string
}.

Record ConversationContext : Type := mkConversationContext {
  ctx_user_id : string;
  conversation_id : string;
  current_request : option ResourceRequest;
  pending_questions : list string;
  collected_parameters : gmap string string;
  created_at : datetime;
  last_activity : datetime
}.

(** An entry of [suggested_actions]. *)
Record Action : Type := mkAction {
  action_type : string;
  action_title : string;
  action_value : string
}.

(** [BotMessage]; [attachments] and [card_actions] stay [None] and
    [is_typing] stays [False] in every message the agent builds. *)
Record BotMessage : Type := mkBotMessage {
  text : string;
  suggested_actions : option (list Action)
}.

Definition text_message (t : string) : BotMessage := mkBotMessage t None.

(** An item of [AzureClient.list_resources()], with the keys the agent reads. *)
Record Resource : Type := mkResource {
  res_name : string;
  res_type : string;
  res_location : string
}.

(** Python exceptions that the modelled code can raise. *)
Inductive Exn : Type :=
| ValueError : string -> Exn
| ValidationError : string -> Exn
| KeyError : string -> Exn.

(** The settings of [src/config.py] that the agent reads. *)
Record Config : Type := mkConfig {
  allowed_users : list string;
  admin_users : list string;
  default_location : string
}.

(** ** The state monad of the agent *)

(** What a run can observe or change: the context store, the calls made to
    the provisioning collaborator (with their argument) and to its listing
    path, the methods of the extractor that were entered, and how many times
    the clock was read. *)
Inductive NlpCall : Type :=
| ExtractResourceType | ExtractName | ExtractLocation
| ExtractVmParameters | ExtractStorageParameters | ExtractWebappParameters
| ExtractTags.

Record World : Type := mkWorld {
  conversation_contexts : gmap string ConversationContext;
  provision_calls : list ResourceRequest;
  list_calls : nat;
  nlp_calls : list NlpCall;
  clock_reads : nat
}.

Inductive Res (A : Type) : Type :=
| Ok : A -> Res A
| Raise : Exn -> Res A.
Arguments Ok {A} _.
Arguments Raise {A} _.

Definition M (A : Type) : Type := World -> Res A * World.

Module MonadM.

Definition pure {A} (a : A) : M A := fun w => (Ok a, w).

(** Sequencing: an exception skips what follows, the state reached so far
    is kept. *)
Definition bind {A B} (m : M A) (f : A -> M B) : M B :=
  fun w =>
    match m w with
    | (Ok a, w') => f a w'
    | (Raise e, w') => (Raise e, w')
    end.

Definition raise {A} (e : Exn) : M A := fun w => (Raise e, w).

(** [try: body  except Exception as e: handler]. *)
Definition try_except {A} (body : M A) (handler : Exn -> M A) : M A :=
  fun w =>
    match body w with
    | (Ok a, w') => (Ok a, w')
    | (Raise e, w') => handler e w'
    end.

Definition lift {A} (r : Res A) : M A := fun w => (r, w).

Definition get_contexts : M (gmap string ConversationContext) :=
  fun w => (Ok (conversation_contexts w), w).

Definition set_contexts (m : gmap string ConversationContext) : M unit :=
  fun w => (Ok tt, mkWorld m (provision_calls w) (list_calls w)
                           (nlp_calls w) (clock_reads w)).

Definition log_nlp (c : NlpCall) : M unit :=
  fun w => (Ok tt, mkWorld (conversation_contexts w) (provision_calls w)
                           (list_calls w) (nlp_calls w ++ [c]) (clock_reads w)).

End MonadM.

#[global] Instance M_ret : MRet M := @MonadM.pure.
#[global] Instance M_bind : MBind M := fun A B f m => MonadM.bind m f.

(** ** The slot extractor ([src/nlp_processor.py]) *)

Module NLPProcessor.
Import PyStr Re.

(** [self.resource_keywords], in insertion order. *)
Definition resource_keywords : list (ResourceType * list string) :=
  [ (VIRTUAL_MACHINE,
     ["vm"; "virtual machine"; "server"; "instance"; "compute";
      "windows server"; "linux server"; "ubuntu"; "centos"]);
    (STORAGE_ACCOUNT,
     ["storage"; "storage account"; "blob"; "file storage";
      "queue"; "table storage"; "data storage"]);
    (WEB_APP,
     ["web app"; "app service"; "website"; "web application";
      "node.js"; "python"; "dotnet"; "java"; "php"; "ruby"]);
    (SQL_DATABASE,
     ["sql"; "database"; "sql database"; "sql server";
      "relational database"; "rdbms"]);
    (COSMOS_DB,
     ["cosmos"; "cosmos db"; "nosql"; "document database";
      "mongodb"; "cassandra"; "table api"]);
    (VIRTUAL_NETWORK,
     ["vnet"; "virtual network"; "network"; "subnet";
      "network security group"; "nsg"]);
    (CONTAINER_INSTANCE,
     ["container"; "aci"; "container instance"; "docker";
      "containerized"; "microservice"]);
    (AKS_CLUSTER,
     ["aks"; "kubernetes"; "k8s"; "container cluster";
      "orchestration"; "microservices"]) ].

(** [self.vm_size_patterns]. *)
Definition vm_size_patterns : list (string * list string) :=
  [ ("basic", ["b1s"; "b1ms"; "b2s"; "b2ms"]);
    ("standard", ["d2s"; "d4s"; "d8s"; "d16s"]);
    ("memory_optimized", ["e2s"; "e4s"; "e8s"; "e16s"]);
    ("compute_optimized", ["f2s"; "f4s"; "f8s"; "f16s"]) ].

(** [self.location_patterns]. *)
Definition location_patterns : list (string * list string) :=
  [ ("east_us", ["east us"; "eastus"; "virginia"]);
    ("west_us", ["west us"; "westus"; "california"]);
    ("central_us", ["central us"; "centralus"; "iowa"]);
    ("north_europe", ["north europe"; "northeurope"; "ireland"]);
    ("west_europe", ["west europe"; "westeurope"; "netherlands"]) ].

(** The two nested loops return at the first keyword found: the first
    type of the table one of whose keywords occurs in the text. *)
Definition extract_resource_type (text : string) : option ResourceType :=
  let text_lower := lower text in
  match List.find (fun entry => any_in (snd entry) text_lower) resource_keywords with
  | Some entry => Some (fst entry)
  | None => None
  end.

(** [(\d+)\s*(gb|gigabytes?|g)]; only [group(1)] is read. *)
Definition ram_pattern : regex :=
  Cat (Grp (Rep 1 is_digit))
      (Cat (Rep 0 is_space)
           (Alt (lit false "gb")
                (Alt (Cat (lit false "gigabyte")
                          (Opt (lit false "s")))
                     (lit false "g")))).

(** [username[:\s]+(\w+)]. *)
Definition username_pattern : regex :=
  Cat (lit false "username")
      (Cat (Rep 1 (fun c => Ascii.eqb c ":" || is_space c))
           (Grp (Rep 1 is_word))).

Definition size_for_ram (ram_gb : N) : string :=
  if (ram_gb <=? 1)%N then "Standard_B1s"
  else if (ram_gb <=? 2)%N then "Standard_B2s"
  else if (ram_gb <=? 4)%N then "Standard_D2s_v3"
  else if (ram_gb <=? 8)%N then "Standard_D4s_v3"
  else if (ram_gb <=? 16)%N then "Standard_D8s_v3"
  else "Standard_D16s_v3".

Definition extract_vm_parameters (text : string) : Res (gmap string ParamValue) :=
  let text_lower := lower text in
  let parameters : gmap string ParamValue := ∅ in
  (* VM type *)
  let parameters :=
    if any_in ["windows"; "win"] text_lower
    then <["vm_type" := PVm WINDOWS]> parameters
    else if any_in ["linux"; "ubuntu"; "centos"; "debian"] text_lower
    then <["vm_type" := PVm LINUX]> parameters
    else parameters in
  (* size: the [break] leaves the inner loop only, so every category is
     visited and a later category overwrites an earlier one *)
  let parameters :=
    fold_left
      (fun (ps : gmap string ParamValue) (entry : string * list string) =>
         match List.find (fun size => str_in size text_lower) (snd entry) with
         | Some size => <["size" := PStr ("Standard_" +:+ upper size)]> ps
         | None => ps
         end)
      vm_size_patterns parameters in
  (* RAM: [int(ram_match.group(1))] may raise, and nothing in this method
     catches it *)
  match
    match search_group1 ram_pattern text_lower with
    | Some digits =>
        match int_of_digits digits with
        | Some ram_gb => Ok (<["size" := PStr (size_for_ram ram_gb)]> parameters)
        | None => Raise (ValueError (int_limit_message digits))
        end
    | None => Ok parameters
    end
  with
  | Raise e => Raise e
  | Ok parameters =>
      (* admin username *)
      Ok match search_group1 username_pattern text_lower with
         | Some user => <["admin_username" := PStr user]> parameters
         | None => parameters
         end
  end.

Definition extract_storage_parameters (text : string) : gmap string ParamValue :=
  let text_lower := lower text in
  let parameters : gmap string ParamValue := ∅ in
  let parameters :=
    if str_in "premium" text_lower
    then <["account_type" := PStorage PREMIUM_LRS]> parameters
    else if str_in "geo" text_lower || str_in "redundant" text_lower
    then <["account_type" := PStorage STANDARD_GRS]> parameters
    else <["account_type" := PStorage STANDARD_LRS]> parameters in
  if str_in "cool" text_lower
  then <["access_tier" := PStr "Cool"]> parameters
  else <["access_tier" := PStr "Hot"]> parameters.

Definition extract_webapp_parameters (text : string) : gmap string ParamValue :=
  let text_lower := lower text in
  let parameters : gmap string ParamValue := ∅ in
  let parameters :=
    if str_in "node" text_lower || str_in "javascript" text_lower
    then <["runtime" := PRuntime NODE_JS]> parameters
    else if str_in "python" text_lower
    then <["runtime" := PRuntime PYTHON]> parameters
    else if str_in "dotnet" text_lower || str_in "c#" text_lower
            || str_in ".net" text_lower
    then <["runtime" := PRuntime DOTNET]> parameters
    else if str_in "java" text_lower
    then <["runtime" := PRuntime JAVA]> parameters
    else if str_in "php" text_lower
    then <["runtime" := PRuntime PHP]> parameters
    else if str_in "ruby" text_lower
    then <["runtime" := PRuntime RUBY]> parameters
    else parameters in
  if str_in "basic" text_lower
  then <["plan_sku" := PStr "B1"]> parameters
  else if str_in "standard" text_lower
  then <["plan_sku" := PStr "S1"]> parameters
  else if str_in "premium" text_lower
  then <["plan_sku" := PStr "P1v2"]> parameters
  else <["plan_sku" := PStr "F1"]> parameters.

(** The first region of the table one of whose aliases occurs, shown as
    [location_name.replace("_", " ").title()]. *)
Definition extract_location (text : string) : option string :=
  let text_lower := lower text in
  match List.find (fun entry => any_in (snd entry) text_lower) location_patterns with
  | Some entry => Some (title (replace_char "_" " " (fst entry)))
  | None => None
  end.

(** The four patterns of [extract_name], compiled with [re.IGNORECASE]:
    [name\s+(?:it\s+)?(C+)], [call\s+(?:it\s+)?(C+)], [named\s+(C+)],
    [called\s+(C+)] with [C = [a-zA-Z0-9\-_]]. *)
Definition name_token : regex := Grp (Rep 1 is_name_char).

Definition name_patterns : list regex :=
  [ Cat (lit true "name")
        (Cat (Rep 1 is_space)
             (Cat (Opt (Cat (lit true "it") (Rep 1 is_space))) name_token));
    Cat (lit true "call")
        (Cat (Rep 1 is_space)
             (Cat (Opt (Cat (lit true "it") (Rep 1 is_space))) name_token));
    Cat (lit true "named") (Cat (Rep 1 is_space) name_token);
    Cat (lit true "called") (Cat (Rep 1 is_space) name_token) ].

(** The first pattern of the list that matches anywhere in the text. *)
Fixpoint first_match (patterns : list regex) (text : string) : option string :=
  match patterns with
  | [] => None
  | pattern :: rest =>
      match search_group1 pattern text with
      | Some g => Some g
      | None => first_match rest text
      end
  end.

Definition extract_name (text : string) : option string :=
  first_match name_patterns text.

(** [project[:\s]+([a-zA-Z0-9\-_]+)]. *)
Definition project_pattern : regex :=
  Cat (lit false "project")
      (Cat (Rep 1 (fun c => Ascii.eqb c ":" || is_space c)) name_token).

Definition extract_tags (text : string) : gmap string string :=
  let tags : gmap string string := ∅ in
  let text_lower := lower text in
  let tags :=
    if str_in "production" text_lower
    then <["environment" := "production"]> tags
    else if str_in "development" text_lower || str_in "dev" text_lower
    then <["environment" := "development"]> tags
    else if str_in "test" text_lower || str_in "testing" text_lower
    then <["environment" := "testing"]> tags
    else tags in
  if str_in "project" text_lower then
    match search_group1 project_pattern text_lower with
    | Some p => <["project" := p]> tags
    | None => tags
    end
  else tags.

(** The questions [parse_request] can put in its second result. *)
Definition q_type : string :=
  "I couldn't determine what type of resource you want to create. Please specify the resource type.".
Definition q_name : string := "What would you like to name this resource?".
Definition q_location : string := "Which Azure region would you prefer?".
Definition q_vm_type : string := "What type of VM would you like? (Windows or Linux)".
Definition q_admin_username : string := "What admin username would you like to use?".
Definition q_runtime : string :=
  "What runtime would you like? (Node.js, Python, .NET, Java, PHP, Ruby)".

(** [missing_params.append(q)] when the slot was not found. *)
Definition ask_if_missing {A} (slot : option A) (q : string) (missing : list string)
  : list string :=
  match slot with
  | Some _ => missing
  | None => missing ++ [q]
  end.

(** [generate_response]. *)
Definition generate_response (request : ResourceRequest) (status : string) : string :=
  let resource_name :=
    title (replace_char "_" " " (ResourceType_value (resource_type request))) in
  let loc := match location request with Some l => l | None => "None" end in
  if String.eqb status "confirm" then
    "I'll create a " +:+ resource_name +:+ " named '" +:+ name request
      +:+ "' in " +:+ loc +:+ ". Is this correct?"
  else if String.eqb status "in_progress" then
    "Creating your " +:+ resource_name +:+ " '" +:+ name request
      +:+ "' in " +:+ loc +:+ ". This may take a few minutes."
  else if String.eqb status "completed" then
    "✅ Your " +:+ resource_name +:+ " '" +:+ name request
      +:+ "' has been successfully created in " +:+ loc +:+ "!"
  else if String.eqb status "failed" then
    "❌ Sorry, I couldn't create the " +:+ resource_name
      +:+ ". Please try again or contact support."
  else "Processing your " +:+ resource_name +:+ " request...".

End NLPProcessor.

(** ** The agent ([src/agent.py]) and the message handler ([src/bot.py]) *)

Section Agent.
Import PyStr NLPProcessor MonadM.

(** The surroundings of the agent: its configuration, the clock (the value
    of the n-th reading of [datetime.utcnow()] by the code modelled here),
    and the provisioning collaborator [AzureClient], whose
    [provision_resource] returns a [ProvisioningResponse] on each of its
    paths (SDK faults come back as status [FAILED]) and whose
    [list_resources] returns a list; the answer may depend on how many
    calls came before. *)
Variable config : Config.
Variable clock : nat -> datetime.
Variable backend_provision : nat -> ResourceRequest -> ProvisioningResponse.
Variable backend_list : nat -> list Resource.

Definition utcnow : M datetime :=
  fun w => (Ok (clock (clock_reads w)),
            mkWorld (conversation_contexts w) (provision_calls w)
                    (list_calls w) (nlp_calls w) (S (clock_reads w))).

(** [self.azure_client.provision_resource(request)]. *)
Definition provision_resource (request : ResourceRequest) : M ProvisioningResponse :=
  fun w => (Ok (backend_provision (length (provision_calls w)) request),
            mkWorld (conversation_contexts w) (provision_calls w ++ [request])
                    (list_calls w) (nlp_calls w) (clock_reads w)).

(** [self.azure_client.list_resources()]. *)
Definition list_resources : M (list Resource) :=
  fun w => (Ok (backend_list (list_calls w)),
            mkWorld (conversation_contexts w) (provision_calls w)
                    (S (list_calls w)) (nlp_calls w) (clock_reads w)).

(** [t.replace(hour=h)]. *)
Definition replace_hour (t : datetime) (h : Z) : Res datetime :=
  if ((0 <=? h) && (h <=? 23))%Z
  then Ok (t + (h - Datetime.hour t) * Datetime.us_per_hour)%Z
  else Raise (ValueError "hour must be in 0..23").

(** The pydantic constructor [ResourceRequest(...)]: the default factory
    of [timestamp] reads the clock, [resource_type] and [name] are
    required and may not be [None]; [resource_group] and [request_id]
    keep their default [None]. *)
Definition new_ResourceRequest (resource_type : option ResourceType)
    (name : option string) (location : option string)
    (parameters : gmap string ParamValue) (tags : option (gmap string string))
    (user_id : string) : M ResourceRequest :=
  now ← utcnow;
  match resource_type, name with
  | Some rt, Some n =>
      mret (mkResourceRequest rt n location None tags parameters user_id None now)
  | None, _ => raise (ValidationError "resource_type: none is not an allowed value")
  | _, None => raise (ValidationError "name: none is not an allowed value")
  end.

(** *** [NLPProcessor.parse_request] *)

Definition parse_request (text : string) (user_id : string)
  : M (option ResourceRequest * list string) :=
  let missing_params : list string := [] in
  log_nlp ExtractResourceType;;
  match extract_resource_type text with
  | None => mret (None, [q_type])
  | Some rt =>
      log_nlp ExtractName;;
      let name := extract_name text in
      let missing_params := ask_if_missing name q_name missing_params in
      log_nlp ExtractLocation;;
      let location := extract_location text in
      let missing_params := ask_if_missing location q_location missing_params in
      let parameters : gmap string ParamValue := ∅ in
      '(parameters, missing_params) ←
        match rt with
        | VIRTUAL_MACHINE =>
            log_nlp ExtractVmParameters;;
            vm_params ← lift (extract_vm_parameters text);
            let missing_params :=
              ask_if_missing (vm_params !! "vm_type") q_vm_type missing_params in
            let missing_params :=
              ask_if_missing (vm_params !! "admin_username") q_admin_username
                             missing_params in
            mret (vm_params ∪ parameters, missing_params)
        | STORAGE_ACCOUNT =>
            log_nlp ExtractStorageParameters;;
            let storage_params := extract_storage_parameters text in
            mret (storage_params ∪ parameters, missing_params)
        | WEB_APP =>
            log_nlp ExtractWebappParameters;;
            let webapp_params := extract_webapp_parameters text in
            let missing_params :=
              ask_if_missing (webapp_params !! "runtime") q_runtime missing_params in
            mret (webapp_params ∪ parameters, missing_params)
        | _ => mret (parameters, missing_params)
        end;
      log_nlp ExtractTags;;
      let tags := extract_tags text in
      match missing_params with
      | [] =>
          request ← new_ResourceRequest (Some rt) name location
                                        parameters (Some tags) user_id;
          mret (Some request, [])
      | _ => mret (None, missing_params)
      end
  end.

(** *** The context store *)

(** A context object lives in [self.conversation_contexts]; the code holds
    it by reference, the model by its key. *)
Definition read_context (key : string) : M ConversationContext :=
  fun w =>
    match conversation_contexts w !! key with
    | Some c => (Ok c, w)
    | None => (Raise (KeyError key), w)
    end.

Definition write_context (key : string)
    (f : ConversationContext -> ConversationContext) : M unit :=
  cs ← get_contexts; set_contexts (alter f key cs).

Definition set_last_activity (t : datetime) (c : ConversationContext) :=
  mkConversationContext (ctx_user_id c) (conversation_id c) (current_request c)
    (pending_questions c) (collected_parameters c) (created_at c) t.

Definition set_current_request (r : option ResourceRequest) (c : ConversationContext) :=
  mkConversationContext (ctx_user_id c) (conversation_id c) r
    (pending_questions c) (collected_parameters c) (created_at c) (last_activity c).

Definition set_pending_questions (qs : list string) (c : ConversationContext) :=
  mkConversationContext (ctx_user_id c) (conversation_id c) (current_request c)
    qs (collected_parameters c) (created_at c) (last_activity c).

Definition set_collected_parameters (ps : gmap string string) (c : ConversationContext) :=
  mkConversationContext (ctx_user_id c) (conversation_id c) (current_request c)
    (pending_questions c) ps (created_at c) (last_activity c).

(** [current_request = None; pending_questions = []; collected_parameters = {}]. *)
Definition clear_fields (c : ConversationContext) : ConversationContext :=
  set_collected_parameters ∅ (set_pending_questions [] (set_current_request None c)).

Definition context_key (user_id conversation_id : string) : string :=
  user_id +:+ ":" +:+ conversation_id.

(** The two default factories of a new context read the clock, then
    [last_activity] is refreshed. *)
Definition _get_conversation_context (user_id conversation_id : string) : M string :=
  let key := context_key user_id conversation_id in
  cs ← get_contexts;
  match cs !! key with
  | None =>
      created ← utcnow;
      activity ← utcnow;
      set_contexts
        (<[key := mkConversationContext user_id conversation_id None [] ∅
                    created activity]> cs)
  | Some _ => mret tt
  end;;
  now ← utcnow;
  write_context key (set_last_activity now);;
  mret key.

Definition _cleanup_old_contexts (max_age_hours : Z) : M unit :=
  receiver ← utcnow;
  now ← utcnow;
  cutoff_time ← lift (replace_hour receiver (Datetime.hour now - max_age_hours));
  cs ← get_contexts;
  set_contexts
    (filter (fun kc => ¬ (last_activity (snd kc) < cutoff_time)%Z) cs).

Definition _check_user_permissions (user_id : string) : bool :=
  if negb (bool_decide (allowed_users config = []))
     && negb (one_of user_id (allowed_users config))
  then false
  else if one_of user_id (admin_users config) then true
  else bool_decide (length (allowed_users config) = 0).

(** *** Replies *)

Definition bullet : string := "â€¢ ".

Definition _handle_complete_request (key : string) (request : ResourceRequest)
  : M BotMessage :=
  write_context key (set_current_request (Some request));;
  let confirmation_text := generate_response request "confirm" in
  let suggested_actions :=
    [ mkAction "imBack" "Yes, create it" "yes";
      mkAction "imBack" "No, cancel" "no" ] in
  mret (mkBotMessage confirmation_text (Some suggested_actions)).

(** The arguments that [_handle_parameter_collection] gives to the
    constructor of the synthesized request. *)
Definition synthesized_resource_type (context : ConversationContext)
  : option ResourceType :=
  match current_request context with
  | Some r => Some (resource_type r)
  | None => None
  end.

Definition synthesized_name (context : ConversationContext) : string :=
  default "unnamed-resource" (collected_parameters context !! "name").

Definition synthesized_location (context : ConversationContext) : string :=
  default (default_location config) (collected_parameters context !! "location").

Definition trouble_text : string :=
  "I'm having trouble understanding the parameters. Please try again with a complete request.".

Definition _handle_parameter_collection (key : string) (message : string)
  : M BotMessage :=
  context ← read_context key;
  match pending_questions context with
  | [] =>
      mret (text_message "I'm not sure what you're referring to. Could you please clarify?")
  | current_question :: rest =>
      (* store the answer, pop the question *)
      write_context key
        (fun c => set_pending_questions rest
                    (set_collected_parameters
                       (<[current_question := message]> (collected_parameters c)) c));;
      match rest with
      | next_question :: _ => mret (text_message next_question)
      | [] =>
          try_except
            (context ← read_context key;
             request ← new_ResourceRequest
                         (synthesized_resource_type context)
                         (Some (synthesized_name context))
                         (Some (synthesized_location context))
                         ∅ None (ctx_user_id context);
             _handle_complete_request key request)
            (fun _ => mret (text_message trouble_text))
      end
  end.

Definition resource_line (resource : Resource) : string :=
  bullet +:+ res_name resource +:+ " (" +:+ res_type resource +:+ ") - "
    +:+ res_location resource.

Definition _handle_list_resources (user_id : string) : M BotMessage :=
  try_except
    (resources ← list_resources;
     match resources with
     | [] => mret (text_message "No resources found in the default resource group.")
     | _ =>
         let resource_list := map resource_line (take 10 resources) in
         let text :=
           "Here are your resources:" +:+ newline +:+ newline
             +:+ join newline resource_list in
         let text :=
           if bool_decide (10 < length resources)
           then text +:+ newline +:+ newline +:+ "... and "
                  +:+ pretty (length resources - 10) +:+ " more resources."
           else text in
         mret (text_message text)
     end)
    (fun _ => mret (text_message "Sorry, I couldn't retrieve your resources. Please try again.")).

Definition help_text : string :=
  join newline
    [ "ðŸ¤– **Azure Resource Provisioning Agent**";
      EmptyString;
      "I can help you create various Azure resources. Here's what I support:";
      EmptyString;
      "**Virtual Machines**";
      "â€¢ Windows and Linux VMs";
      "â€¢ Custom sizes and configurations";
      "â€¢ Example: " +:+ dquote +:+ "Create a Windows VM with 4GB RAM" +:+ dquote;
      EmptyString;
      "**Storage Accounts**";
      "â€¢ Blob, File, Queue, and Table storage";
      "â€¢ Different redundancy options";
      "â€¢ Example: " +:+ dquote +:+ "Create a storage account for my project" +:+ dquote;
      EmptyString;
      "**Web Apps**";
      "â€¢ Node.js, Python, .NET, Java, PHP, Ruby";
      "â€¢ App Service with custom plans";
      "â€¢ Example: " +:+ dquote +:+ "Deploy a Node.js web app" +:+ dquote;
      EmptyString;
      "**Other Resources**";
      "â€¢ SQL Databases";
      "â€¢ Cosmos DB";
      "â€¢ Virtual Networks";
      "â€¢ Container Instances";
      "â€¢ AKS Clusters";
      "â€¢ And more!";
      EmptyString;
      "**Commands**";
      "â€¢ " +:+ dquote +:+ "help" +:+ dquote +:+ " - Show this message";
      "â€¢ " +:+ dquote +:+ "list resources" +:+ dquote +:+ " - Show your existing resources";
      "â€¢ " +:+ dquote +:+ "cancel" +:+ dquote +:+ " - Cancel current operation";
      EmptyString;
      "Just tell me what you want to create! ðŸš€" ].

Definition _get_help_message : BotMessage := text_message help_text.

Definition denied_text : string :=
  "Sorry, you don't have permission to provision Azure resources. Please contact your administrator.".

Definition error_text : string :=
  "Sorry, I encountered an error while processing your request. Please try again.".

Definition more_information_text (missing_params : list string) : string :=
  "I need some more information to create your resource:" +:+ newline +:+ newline
    +:+ join newline (map (fun question => bullet +:+ question) missing_params).

(** *** [process_message] *)

(** The part of the [try] block of [process_message] that follows the
    clean-up: permission check, context lookup and the keyword tests in
    their order. *)
Definition dispatch_message (user_id conversation_id message : string) : M BotMessage :=
  if negb (_check_user_permissions user_id) then mret (text_message denied_text)
  else
    key ← _get_conversation_context user_id conversation_id;
    if one_of (lower message) ["cancel"; "stop"; "abort"] then
      write_context key clear_fields;;
      mret (text_message "Operation cancelled. How can I help you?")
    else if one_of (lower message) ["help"; "what can you do"; "?"] then
      mret _get_help_message
    else if any_in ["list"; "show"; "what"; "resources"] (lower message) then
      _handle_list_resources user_id
    else
      context ← read_context key;
      match pending_questions context with
      | _ :: _ => _handle_parameter_collection key message
      | [] =>
          '(request, missing_params) ← parse_request message user_id;
          match request with
          | Some request => _handle_complete_request key request
          | None =>
              write_context key (set_pending_questions missing_params);;
              mret (text_message (more_information_text missing_params))
          end
      end.

Definition process_message (user_id conversation_id message : string) : M BotMessage :=
  try_except
    (_cleanup_old_contexts 24;;
     dispatch_message user_id conversation_id message)
    (fun _ => mret (text_message error_text)).

(** *** [confirm_and_provision] *)

Definition nothing_to_confirm_text : string :=
  "No pending request to confirm. Please start a new request.".

Definition cancelled_text : string := "Request cancelled. How can I help you?".

Definition failure_text (response : ProvisioningResponse) : string :=
  "âŒ Failed to create resource: " +:+ message response.

Definition confirm_and_provision (user_id conversation_id : string) (confirm : bool)
  : M BotMessage :=
  key ← _get_conversation_context user_id conversation_id;
  context ← read_context key;
  match current_request context with
  | None => mret (text_message nothing_to_confirm_text)
  | Some request =>
      if negb confirm then
        write_context key clear_fields;;
        mret (text_message cancelled_text)
      else
        try_except
          (let status_message := generate_response request "in_progress" in
           response ← provision_resource request;
           write_context key clear_fields;;
           if bool_decide (status response = COMPLETED) then
             temp_request ← new_ResourceRequest
                              (Some (resp_resource_type response))
                              (Some (resource_name response))
                              (Some (resp_location response))
                              ∅ None (ctx_user_id context);
             mret (text_message (generate_response temp_request "completed"))
           else mret (text_message (failure_text response)))
          (fun _ =>
             mret (text_message
               "Sorry, I encountered an error while creating your resource. Please try again."))
  end.

(** *** [AzureProvisioningBot.on_message_activity] *)

(** The result is the message handed to the channel ([_send_response] or,
    in the handler, [send_activity]). *)
Definition on_message_activity (user_id conversation_id message_text : string)
  : M BotMessage :=
  try_except
    (response ← process_message user_id conversation_id message_text;
     if one_of (lower message_text) ["yes"; "no"] then
       let confirm := String.eqb (lower message_text) "yes" in
       confirm_and_provision user_id conversation_id confirm
     else mret response)
    (fun _ => mret (text_message "Sorry, I encountered an error. Please try again.")).

End Agent.

(** ** Vocabulary of the statements *)

Module Spec.
Import PyStr NLPProcessor.

(** The world after [n] more readings of the clock. *)
Definition ticked (n : nat) (w : World) : World :=
  mkWorld (conversation_contexts w) (provision_calls w) (list_calls w)
          (nlp_calls w) (n + clock_reads w).

(** The world after the extractor entered the methods [calls]. *)
Definition logged (calls : list NlpCall) (w : World) : World :=
  mkWorld (conversation_contexts w) (provision_calls w) (list_calls w)
          (nlp_calls w ++ calls) (clock_reads w).

Definition with_contexts (cs : gmap string ConversationContext) (w : World) : World :=
  mkWorld cs (provision_calls w) (list_calls w) (nlp_calls w) (clock_reads w).

(** No phrase of the keyword table occurs in the lower-cased text. *)
Definition no_resource_keyword (text : string) : Prop :=
  Forall (fun entry : ResourceType * list string =>
            Forall (fun keyword => str_in keyword (lower text) = false) (snd entry))
         resource_keywords.

(** The questions in their fixed priority: name, location, then the slots
    of the detected type. *)
Definition type_questions (rt : ResourceType) : list string :=
  match rt with
  | VIRTUAL_MACHINE => [q_vm_type; q_admin_username]
  | WEB_APP => [q_runtime]
  | _ => []
  end.

Definition question_priority (rt : ResourceType) : list string :=
  [q_name; q_location] ++ type_questions rt.

(** Every question text the extractor can return. *)
Definition extractor_questions : list string :=
  [q_type; q_name; q_location; q_vm_type; q_admin_username; q_runtime].

(** The extractor method that belongs to a type, if any. *)
Definition type_calls (rt : ResourceType) : list NlpCall :=
  match rt with
  | VIRTUAL_MACHINE => [ExtractVmParameters]
  | STORAGE_ACCOUNT => [ExtractStorageParameters]
  | WEB_APP => [ExtractWebappParameters]
  | _ => []
  end.

(** The text holds an amount of memory with more digits than [int()]
    accepts. *)
Definition ram_amount_too_long (text : string) : bool :=
  match Re.search_group1 ram_pattern (lower text) with
  | Some digits => (int_max_str_digits <? String.length digits)%nat
  | None => false
  end.

(** The dict that [extract_vm_parameters] returns (empty when it raises). *)
Definition returned_vm_parameters (text : string) : gmap string ParamValue :=
  match extract_vm_parameters text with
  | Ok parameters => parameters
  | Raise _ => ∅
  end.

(** The slots of a type that the text leaves open. *)
Definition type_missing (rt : ResourceType) (text : string) : list string :=
  match rt with
  | VIRTUAL_MACHINE =>
      ask_if_missing (returned_vm_parameters text !! "admin_username") q_admin_username
        (ask_if_missing (returned_vm_parameters text !! "vm_type") q_vm_type [])
  | WEB_APP => ask_if_missing (extract_webapp_parameters text !! "runtime") q_runtime []
  | _ => []
  end.

Definition missing_for (rt : ResourceType) (text : string) : list string :=
  ask_if_missing (extract_name text) q_name []
    ++ ask_if_missing (extract_location text) q_location []
    ++ type_missing rt text.

(** The three fields that make a context idle. *)
Definition idle (c : ConversationContext) : Prop :=
  current_request c = None ∧ pending_questions c = [] ∧ collected_parameters c = ∅.

End Spec.

(** ** Concrete surroundings and states used in examples *)

Module Examples.
Import NLPProcessor.

(** No user restriction, as with the default settings. *)
Definition open_config : Config := mkConfig [] [] "East US".

Definition t0 : datetime := 63900000000000000%Z.

(** A clock that advances by a microsecond at each reading. *)
Definition example_clock (n : nat) : datetime := (t0 + Z.of_nat n)%Z.

Definition created_backend (n : nat) (r : ResourceRequest) : ProvisioningResponse :=
  mkProvisioningResponse "req-1" COMPLETED (Some "id-1") (name r) (resource_type r)
    (default "East US" (location r)) "azure-provisioning-rg"
    "Virtual machine created successfully" None.

Definition failing_backend (n : nat) (r : ResourceRequest) : ProvisioningResponse :=
  mkProvisioningResponse "req-1" FAILED None (name r) (resource_type r)
    (default "East US" (location r)) "azure-provisioning-rg"
    "Failed to create virtual machine" (Some "quota exceeded").

Definition no_resources (n : nat) : list Resource := [].

Definition empty_world : World := mkWorld ∅ [] 0 [] 0.

Definition world_with (key : string) (c : ConversationContext) : World :=
  mkWorld {[ key := c ]} [] 0 [] 0.

(** A context last used 25 hours before the clock's first reading. *)
Definition stale_context : ConversationContext :=
  mkConversationContext "alice" "conv1" None [] ∅
    (Datetime.hours_before 30 t0) (Datetime.hours_before 25 t0).

(** A context with two questions pending and no request. *)
Definition collecting_context : ConversationContext :=
  mkConversationContext "alice" "conv1" None [q_name; q_location] ∅
    (Datetime.hours_before 1 t0) (Datetime.hours_before 1 t0).

(** A context whose last question is pending; the name was answered. *)
Definition last_question_context : ConversationContext :=
  mkConversationContext "alice" "conv1" None [q_location]
    {[ q_name := "web01" ]}
    (Datetime.hours_before 1 t0) (Datetime.hours_before 1 t0).

Definition example_request : ResourceRequest :=
  mkResourceRequest VIRTUAL_MACHINE "web01" (Some "East Us") None (Some ∅)
    (<["admin_username" := PStr "admin"]> (<["vm_type" := PVm WINDOWS]> ∅))
    "alice" None (Datetime.hours_before 1 t0).

(** A context that awaits confirmation, with left-overs of a collection. *)
Definition awaiting_context : ConversationContext :=
  mkConversationContext "alice" "conv1" (Some example_request) [q_location]
    {[ q_name := "web01" ]}
    (Datetime.hours_before 1 t0) (Datetime.hours_before 1 t0).

End Examples.

(** ** Further vocabulary *)

Module Spec2.
Import PyStr Re NLPProcessor.

(** Every character of [s] is in the class [p]. *)
Fixpoint all_chars (p : ascii -> bool) (s : string) : bool :=
  match s with
  | EmptyString => true
  | String c s' => p c && all_chars p s'
  end.

(** A non-empty run of characters of the class [p]. *)
Definition token_of (p : ascii -> bool) (s : string) : Prop :=
  s <> EmptyString /\ all_chars p s = true.

(** A pattern that ends in the capturing group [(p+)]. *)
Inductive ends_in_group (p : ascii -> bool) : regex -> Prop :=
| ends_group : ends_in_group p (Grp (Rep 1 p))
| ends_cat (a r : regex) : ends_in_group p r -> ends_in_group p (Cat a r).

(** Keywords of the table that contain a keyword of an earlier entry, with
    the type in whose list they stand. *)
Definition shadowed_keywords : list (string * ResourceType) :=
  [ ("sql server", SQL_DATABASE);
    ("container instance", CONTAINER_INSTANCE);
    ("document database", COSMOS_DB);
    ("container cluster", AKS_CLUSTER);
    ("microservices", AKS_CLUSTER) ].

(** The display names [extract_location] can return. *)
Definition region_names : list string :=
  ["East Us"; "West Us"; "Central Us"; "North Europe"; "West Europe"].

End Spec2.

Module Spec3.
Import PyStr NLPProcessor.

(** The context that [_get_conversation_context] leaves under the key: the
    stored one with a new [last_activity], or a new idle one. *)
Definition refreshed_context (clock : nat -> datetime) (user_id conversation_id : string)
    (w : World) : ConversationContext :=
  match conversation_contexts w !! context_key user_id conversation_id with
  | Some c => set_last_activity (clock (clock_reads w)) c
  | None =>
      mkConversationContext user_id conversation_id None [] ∅
        (clock (clock_reads w)) (clock (2 + clock_reads w))
  end.

(** How often it reads the clock. *)
Definition context_clock_reads (user_id conversation_id : string) (w : World) : nat :=
  match conversation_contexts w !! context_key user_id conversation_id with
  | Some _ => 1
  | None => 3
  end.

(** The request, pending questions and collected answers of a context. *)
Definition dialogue_fields (c : ConversationContext)
  : option ResourceRequest * list string * gmap string string :=
  (current_request c, pending_questions c, collected_parameters c).

(** The two buttons of a confirmation prompt. *)
Definition yes_no_actions : list Action :=
  [ mkAction "imBack" "Yes, create it" "yes"; mkAction "imBack" "No, cancel" "no" ].

(** The instant that [_cleanup_old_contexts] compares with: the first clock
    reading with its hour replaced by the hour of the second reading minus
    [max_age_hours]. *)
Definition cleanup_cutoff (clock : nat -> datetime) (max_age_hours : Z) (w : World)
  : datetime :=
  let first := clock (clock_reads w) in
  let second := clock (S (clock_reads w)) in
  (first + (Datetime.hour second - max_age_hours - Datetime.hour first)
           * Datetime.us_per_hour)%Z.

(** The world after one more call of [list_resources]. *)
Definition after_listing (w : World) : World :=
  mkWorld (conversation_contexts w) (provision_calls w) (S (list_calls w))
          (nlp_calls w) (clock_reads w).

(** Every context of the store is idle. *)
Definition all_idle (w : World) : Prop :=
  forall key c, conversation_contexts w !! key = Some c -> Spec.idle c.

End Spec3.

(** The bot handling the messages of a list, one after the other; a message
    is the triple of user id, conversation id and text.  The result holds
    the messages sent back, in order. *)
Fixpoint handle_messages (config : Config) (clock : nat -> datetime)
    (backend_provision : nat -> ResourceRequest -> ProvisioningResponse)
    (backend_list : nat -> list Resource)
    (messages : list (string * string * string)) : M (list BotMessage) :=
  match messages with
  | [] => mret []
  | (user, conversation, text) :: rest =>
      reply ← on_message_activity config clock backend_provision backend_list
                user conversation text;
      replies ← handle_messages config clock backend_provision backend_list rest;
      mret (reply :: replies)
  end.

(** ** The provisioning collaborator ([src/azure_client.py]) *)

Module AzureClient.
Import PyStr.

(** The dictionaries handed to the Azure SDK. *)
Record VnetParams : Type := mkVnetParams {
  vnet_location : string;
  address_prefixes : list string;
  subnet_name : string;
  subnet_address_prefix : string
}.

Record NicParams : Type := mkNicParams {
  nic_location : string;
  ip_configuration_name : string;
  subnet_id : string
}.

Record VmParams : Type := mkVmParams {
  vm_location : string;
  vm_size : ParamValue;
  image_publisher : string;
  image_offer : string;
  image_sku : string;
  image_version : string;
  os_disk_caching : string;
  os_disk_storage_account_type : string;
  network_interface_id : string;
  computer_name : string;
  admin_username : ParamValue;
  admin_password : ParamValue
}.

(** [enable_https_traffic_only] is the stored parameter or, without one
    ([None]), the literal [True]. *)
Record StorageParams : Type := mkStorageParams {
  storage_location : string;
  sku_name : ParamValue;
  kind : string;
  access_tier : ParamValue;
  enable_https_traffic_only : option ParamValue;
  minimum_tls_version : string
}.

Record PlanParams : Type := mkPlanParams {
  plan_location : string;
  plan_sku_name : ParamValue;
  plan_sku_tier : string
}.

(** [app_settings] is the stored parameter or, without one ([None]), the
    empty dict. *)
Record WebAppParams : Type := mkWebAppParams {
  webapp_location : string;
  server_farm_id : string;
  app_settings : option ParamValue
}.

(** The calls of the SDK that create something. *)
Inductive SdkCall : Type :=
| ResourceGroupsCreateOrUpdate (resource_group location : string)
| VirtualNetworksCreate (resource_group vnet_name : string) (params : VnetParams)
| NetworkInterfacesCreate (resource_group nic_name : string) (params : NicParams)
| VirtualMachinesCreate (resource_group vm_name : string) (params : VmParams)
| StorageAccountsCreate (resource_group account_name : string) (params : StorageParams)
| AppServicePlansCreate (resource_group : string) (plan_name : ParamValue)
                        (params : PlanParams)
| WebAppsCreate (resource_group app_name : string) (params : WebAppParams).

(** The fields of a [ProvisioningResponse] that the agent never reads. *)
Record ResponseTimes : Type := mkResponseTimes {
  response_created_at : datetime;
  response_completed_at : option datetime;
  response_tags : option (gmap string string)
}.

(** A client method runs over the calls made so far; a raised exception is
    its text ([str(e)]). *)
Definition Az (A : Type) : Type := list SdkCall -> (string + A) * list SdkCall.

Definition az_ret {A} (a : A) : Az A := fun h => (inr a, h).

Definition az_bind {A B} (m : Az A) (f : A -> Az B) : Az B :=
  fun h =>
    match m h with
    | (inr a, h') => f a h'
    | (inl e, h') => (inl e, h')
    end.

(** [try: body  except Exception as e: return handler(e)], the shape of
    every method of the client. *)
Definition az_try {A} (body : Az A) (handler : string -> A)
  : list SdkCall -> A * list SdkCall :=
  fun h =>
    match body h with
    | (inr a, h') => (a, h')
    | (inl e, h') => (handler e, h')
    end.

(** [x or default] for an optional string. *)
Definition or_default (x : option string) (d : string) : string :=
  match x with
  | Some s => if String.eqb s EmptyString then d else s
  | None => d
  end.

(** [v == VMType.WINDOWS]; the enum is a [str], so the plain string
    "windows" is equal to it as well. *)
Definition is_windows (v : ParamValue) : bool :=
  match v with
  | PVm WINDOWS => true
  | PStr s => String.eqb s "windows"
  | _ => false
  end.

#[global] Instance Az_ret : MRet Az := @az_ret.
#[global] Instance Az_bind : MBind Az := fun A B f m => az_bind m f.

Section Client.

(** [config.azure.default_resource_group], [config.azure.default_location];
    the text that [f"{request.resource_type}"] gives (it depends on the
    Python version); the SDK: what a call returns (the id read off the
    created object) or raises, given the calls made before; the value of
    [str(uuid.uuid4())] and the clock readings of this call of the client. *)
Variable default_resource_group : string.
Variable default_location : string.
Variable format_resource_type : ResourceType -> string.
Variable sdk : list SdkCall -> SdkCall -> string + string.
Variable request_uuid : string.
Variable client_clock : nat -> datetime.

(** One SDK call, with the id read off its result. *)
Definition sdk_call (c : SdkCall) : Az string := fun h => (sdk h c, (h ++ [c])%list).

Definition ensure_resource_group (resource_group location : string)
  : list SdkCall -> bool * list SdkCall :=
  az_try (sdk_call (ResourceGroupsCreateOrUpdate resource_group location);;
          mret true)
         (fun _ => false).

Definition failed_response (request : ResourceRequest) (resource_group location : string)
    (message : string) (error_details : option string)
  : ProvisioningResponse * ResponseTimes :=
  (mkProvisioningResponse request_uuid FAILED None (name request)
     (resource_type request) location resource_group message error_details,
   mkResponseTimes (client_clock 0) None None).

Definition completed_response (request : ResourceRequest)
    (resource_group location : string) (resource_id message : string)
  : ProvisioningResponse * ResponseTimes :=
  (mkProvisioningResponse request_uuid COMPLETED (Some resource_id) (name request)
     (resource_type request) location resource_group message None,
   mkResponseTimes (client_clock 0) (Some (client_clock 1)) (tags request)).

(** [request.parameters.get(key, default)]. *)
Definition parameter (request : ResourceRequest) (key : string) (d : ParamValue)
  : ParamValue :=
  default d (parameters request !! key).

Definition provision_virtual_machine (request : ResourceRequest)
  : list SdkCall -> (ProvisioningResponse * ResponseTimes) * list SdkCall :=
  let resource_group := or_default (resource_group request) default_resource_group in
  let location := or_default (location request) default_location in
  az_try
    (fun h =>
       let '(ok, h) := ensure_resource_group resource_group location h in
       if negb ok then
         az_ret (failed_response request resource_group location
                   "Failed to create resource group" None) h
       else
         (let vm_type := parameter request "vm_type" (PVm WINDOWS) in
          let size := parameter request "size" (PStr "Standard_B1s") in
          let admin_username := parameter request "admin_username" (PStr "azureuser") in
          let admin_password :=
            parameter request "admin_password" (PStr "Azure123456!") in
          let nic_name := name request +:+ "-nic" in
          let vnet_name := name request +:+ "-vnet" in
          let subnet_name := name request +:+ "-subnet" in
          subnet ← sdk_call
                     (VirtualNetworksCreate resource_group vnet_name
                        (mkVnetParams location ["10.0.0.0/16"] subnet_name "10.0.0.0/24"));
          nic ← sdk_call
                  (NetworkInterfacesCreate resource_group nic_name
                     (mkNicParams location "ipconfig1" subnet));
          let '(publisher, offer, sku) :=
            if is_windows vm_type
            then ("MicrosoftWindowsServer", "WindowsServer", "2019-Datacenter")
            else ("Canonical", "UbuntuServer", "18.04-LTS") in
          vm ← sdk_call
                 (VirtualMachinesCreate resource_group (name request)
                    (mkVmParams location size publisher offer sku "latest"
                       "ReadWrite" "Standard_LRS" nic (name request)
                       admin_username admin_password));
          mret (completed_response request resource_group location vm
                  ("Virtual machine '" +:+ name request +:+ "' created successfully")))
           h)
    (fun e => failed_response request resource_group location
                "Failed to create virtual machine" (Some e)).

Definition provision_storage_account (request : ResourceRequest)
  : list SdkCall -> (ProvisioningResponse * ResponseTimes) * list SdkCall :=
  let resource_group := or_default (resource_group request) default_resource_group in
  let location := or_default (location request) default_location in
  az_try
    (fun h =>
       let '(ok, h) := ensure_resource_group resource_group location h in
       if negb ok then
         az_ret (failed_response request resource_group location
                   "Failed to create resource group" None) h
       else
         (let account_type := parameter request "account_type" (PStorage STANDARD_LRS) in
          let access_tier := parameter request "access_tier" (PStr "Hot") in
          let enable_https := parameters request !! "enable_https_traffic_only" in
          storage_account ← sdk_call
                     (StorageAccountsCreate resource_group (name request)
                        (mkStorageParams location account_type "StorageV2" access_tier
                           enable_https "TLS1_2"));
          mret (completed_response request resource_group location storage_account
                  ("Storage account '" +:+ name request +:+ "' created successfully")))
           h)
    (fun e => failed_response request resource_group location
                "Failed to create storage account" (Some e)).

Definition provision_web_app (request : ResourceRequest)
  : list SdkCall -> (ProvisioningResponse * ResponseTimes) * list SdkCall :=
  let resource_group := or_default (resource_group request) default_resource_group in
  let location := or_default (location request) default_location in
  az_try
    (fun h =>
       let '(ok, h) := ensure_resource_group resource_group location h in
       if negb ok then
         az_ret (failed_response request resource_group location
                   "Failed to create resource group" None) h
       else
         (let runtime := parameter request "runtime" (PRuntime NODE_JS) in
          let plan_sku := parameter request "plan_sku" (PStr "B1") in
          let plan_name :=
            parameter request "plan_name" (PStr (name request +:+ "-plan")) in
          plan ← sdk_call
                   (AppServicePlansCreate resource_group plan_name
                      (mkPlanParams location plan_sku "Basic"));
          web_app ← sdk_call
                      (WebAppsCreate resource_group (name request)
                         (mkWebAppParams location plan
                            (parameters request !! "app_settings")));
          mret (completed_response request resource_group location web_app
                  ("Web app '" +:+ name request +:+ "' created successfully")))
           h)
    (fun e => failed_response request resource_group location
                "Failed to create web app" (Some e)).

Definition provision_resource (request : ResourceRequest)
  : list SdkCall -> (ProvisioningResponse * ResponseTimes) * list SdkCall :=
  match resource_type request with
  | VIRTUAL_MACHINE => provision_virtual_machine request
  | STORAGE_ACCOUNT => provision_storage_account request
  | WEB_APP => provision_web_app request
  | _ =>
      fun h =>
        (failed_response request
           (or_default (resource_group request) default_resource_group)
           (or_default (location request) default_location)
           ("Resource type " +:+ format_resource_type (resource_type request)
              +:+ " not yet implemented") None,
         h)
  end.

End Client.

End AzureClient.

(** The collaborator of the agent, made of the client: for the n-th call
    of [provision_resource], [sdk_of n] is the SDK with everything that
    happened before, [uuid_of n] the fresh id and [clock_of n] the clock
    readings; the agent gets the response. *)
Definition azure_backend (default_resource_group default_location : string)
    (format_resource_type : ResourceType -> string)
    (sdk_of : nat -> list AzureClient.SdkCall -> AzureClient.SdkCall -> string + string)
    (uuid_of : nat -> string) (clock_of : nat -> nat -> datetime)
    (n : nat) (request : ResourceRequest) : ProvisioningResponse :=
  fst (fst (AzureClient.provision_resource default_resource_group default_location
              format_resource_type (sdk_of n) (uuid_of n) (clock_of n) request [])).

Module Spec4.
Import AzureClient.

(** The resource types the client can create. *)
Definition supported (rt : ResourceType) : bool :=
  match rt with
  | VIRTUAL_MACHINE | STORAGE_ACCOUNT | WEB_APP => true
  | _ => false
  end.

(** Each of the calls, made in this order after [h], returned. *)
Fixpoint all_returned (sdk : list SdkCall -> SdkCall -> string + string)
    (h : list SdkCall) (calls : list SdkCall) : bool :=
  match calls with
  | [] => true
  | c :: rest =>
      match sdk h c with
      | inr _ => all_returned sdk (h ++ [c]) rest
      | inl _ => false
      end
  end.

(** The request with other parameters. *)
Definition with_parameters (ps : gmap string ParamValue) (r : ResourceRequest)
  : ResourceRequest :=
  mkResourceRequest (resource_type r) (name r) (location r) (resource_group r)
    (tags r) ps (user_id r) (request_id r) (timestamp r).

End Spec4.

(** ** More concrete surroundings for examples *)

Module Examples2.
Import NLPProcessor Examples.

(** alice and bob are allowed, only alice is an administrator. *)
Definition restricted_config : Config := mkConfig ["alice"; "bob"] ["alice"] "East US".

(** An SDK in which every call returns the id "id-1". *)
Definition sdk_all_ok (h : list AzureClient.SdkCall) (c : AzureClient.SdkCall)
  : string + string := inr "id-1".

(** An SDK in which every call raises. *)
Definition sdk_all_fail (h : list AzureClient.SdkCall) (c : AzureClient.SdkCall)
  : string + string := inl "AuthorizationFailed".

Definition example_uuid : string := "0b0e7c4e-0000-4000-8000-000000000001".

Definition sql_request : ResourceRequest :=
  mkResourceRequest SQL_DATABASE "orders" (Some "West Us") None (Some ∅) ∅
    "alice" None (Datetime.hours_before 1 t0).

(** A context that awaits the confirmation of a SQL database request. *)
Definition sql_context : ConversationContext :=
  mkConversationContext "alice" "conv1" (Some sql_request) [] ∅
    (Datetime.hours_before 1 t0) (Datetime.hours_before 1 t0).

Definition webapp_request : ResourceRequest :=
  mkResourceRequest WEB_APP "shop" (Some "West Us") None (Some ∅) ∅
    "alice" None (Datetime.hours_before 1 t0).

(** A virtual-machine text with an amount of memory of 4301 digits. *)
Definition long_ram_text : string :=
  "vm " +:+ string_of_list_ascii (replicate 4301 "9"%char) +:+ "gb".

End Examples2.

(** ** Properties of the slot extractor *)

Section ExtractorFacts.
Import PyStr NLPProcessor MonadM Spec.

Variable clock : nat -> datetime.

Lemma extract_resource_type_none (text : string) :
  no_resource_keyword text -> extract_resource_type text = None.
Proof.
  unfold no_resource_keyword, extract_resource_type.
  generalize (lower text) as t. intros t H.
  induction H as [|entry rest Hentry _ IH]; [reflexivity|].
  cbn [List.find].
  replace (any_in (snd entry) t) with false; [exact IH|].
  symmetry. unfold any_in.
  induction Hentry as [|kw kws Hkw _ IHk]; [reflexivity|].
  cbn [existsb]. rewrite Hkw. exact IHk.
Qed.

Lemma ask_if_missing_app {A} (slot : option A) (q : string) (l : list string) :
  ask_if_missing slot q l = (l ++ ask_if_missing slot q [])%list.
Proof. destruct slot; cbn; [by rewrite app_nil_r | done]. Qed.

Lemma Ok_inj {A} (a b : A) : Ok a = Ok b -> a = b.
Proof. by intros [= ->]. Qed.

(** [extract_vm_parameters] returns unless the text holds an amount of
    memory of more than 4300 digits; then [int()] raises. *)
Lemma extract_vm_parameters_returns (text : string) :
  ram_amount_too_long text = false ->
  extract_vm_parameters text = Ok (returned_vm_parameters text).
Proof.
  unfold ram_amount_too_long, returned_vm_parameters, extract_vm_parameters,
    int_of_digits.
  destruct (Re.search_group1 ram_pattern (lower text)) as [digits|]; [|done].
  by intros ->.
Qed.

Lemma extract_vm_parameters_raises (text : string) :
  ram_amount_too_long text = true ->
  exists digits,
    Re.search_group1 ram_pattern (lower text) = Some digits
    /\ int_max_str_digits < String.length digits
    /\ extract_vm_parameters text = Raise (ValueError (int_limit_message digits)).
Proof.
  unfold ram_amount_too_long, extract_vm_parameters, int_of_digits.
  destruct (Re.search_group1 ram_pattern (lower text)) as [digits|]; [|done].
  intros H. exists digits. rewrite H. split_and!; [done| |done].
  by apply Nat.ltb_lt.
Qed.

(** [parse_request] as a function of what the extractors find, when the
    conversion of the memory amount does not raise. *)
Lemma parse_request_detected (text user_id : string) (rt : ResourceType) (w : World) :
  extract_resource_type text = Some rt ->
  (rt = VIRTUAL_MACHINE -> ram_amount_too_long text = false) ->
  parse_request clock text user_id w =
    let w1 := logged ([ExtractResourceType; ExtractName; ExtractLocation]
                        ++ type_calls rt ++ [ExtractTags])%list w in
    match missing_for rt text with
    | [] =>
        match extract_name text with
        | Some n =>
            (Ok (Some (mkResourceRequest rt n (extract_location text) None
                         (Some (extract_tags text))
                         (match rt with
                          | VIRTUAL_MACHINE => returned_vm_parameters text ∪ ∅
                          | STORAGE_ACCOUNT => extract_storage_parameters text ∪ ∅
                          | WEB_APP => extract_webapp_parameters text ∪ ∅
                          | _ => ∅
                          end)
                         user_id None (clock (clock_reads w))), []),
             ticked 1 w1)
        | None => (Raise (ValidationError "name: none is not an allowed value"),
                   ticked 1 w1)
        end
    | missing => (Ok (None, missing), w1)
    end.
Proof.
  intros Hrt Hram. unfold parse_request, missing_for, type_missing.
  rewrite Hrt. destruct w as [cs pc lc nc cr].
  assert (Hvm : rt = VIRTUAL_MACHINE ->
                extract_vm_parameters text = Ok (returned_vm_parameters text))
    by (intros E; by apply extract_vm_parameters_returns, Hram).
  clear Hram.
  destruct (extract_name text) as [n|], (extract_location text) as [l|];
    destruct rt; rewrite ?Hvm by reflexivity;
    cbv [mbind M_bind mret M_ret bind pure raise log_nlp new_ResourceRequest
         utcnow logged ticked type_calls lift];
    repeat match goal with
    | |- context [ask_if_missing (?m !! ?k) _ _] => destruct (m !! k)
    end;
    cbn [ask_if_missing app conversation_contexts provision_calls list_calls
         nlp_calls clock_reads Nat.add];
    rewrite <- ?app_assoc; reflexivity.
Qed.

(** [parse_request] on a virtual-machine text whose memory amount [int()]
    refuses: the [ValueError] leaves [parse_request] after the call of
    [extract_vm_parameters]. *)
Lemma parse_request_vm_raises (text user_id : string) (w : World) :
  extract_resource_type text = Some VIRTUAL_MACHINE ->
  ram_amount_too_long text = true ->
  exists digits,
    Re.search_group1 ram_pattern (lower text) = Some digits
    /\ int_max_str_digits < String.length digits
    /\ parse_request clock text user_id w
       = (Raise (ValueError (int_limit_message digits)),
          logged [ExtractResourceType; ExtractName; ExtractLocation;
                  ExtractVmParameters] w).
Proof.
  intros Hrt Hram.
  destruct (extract_vm_parameters_raises _ Hram) as (digits & Hd & Hlen & Hraise).
  exists digits. split_and!; [done..|].
  unfold parse_request. rewrite Hrt, Hraise. destruct w as [cs pc lc nc cr].
  cbv [mbind M_bind mret M_ret bind pure raise log_nlp logged lift].
  cbn [app conversation_contexts provision_calls list_calls nlp_calls clock_reads].
  rewrite <- ?app_assoc. reflexivity.
Qed.

Lemma missing_for_sublist (rt : ResourceType) (text : string) :
  sublist (missing_for rt text) (question_priority rt).
Proof.
  unfold missing_for, question_priority, type_missing, type_questions.
  destruct (extract_name text), (extract_location text); destruct rt; cbn;
    repeat match goal with
    | |- context [ask_if_missing (?m !! ?k) _ _] => destruct (m !! k); cbn
    end;
    repeat first [ apply sublist_nil | apply sublist_skip; [] | apply sublist_cons
                 | apply sublist_nil_l ].
Qed.

Lemma missing_for_nil_name (rt : ResourceType) (text : string) :
  missing_for rt text = [] -> is_Some (extract_name text).
Proof.
  unfold missing_for. destruct (extract_name text); [eauto | discriminate].
Qed.

(** The result of [parse_request] for a text with a detected type, when
    the conversion of the memory amount does not raise: it returns, with
    the missing list [missing_for rt text]. *)
Lemma parse_request_returns (text user_id : string) (rt : ResourceType) (w : World) :
  extract_resource_type text = Some rt ->
  (rt = VIRTUAL_MACHINE -> ram_amount_too_long text = false) ->
  exists request w',
    parse_request clock text user_id w = (Ok (request, missing_for rt text), w').
Proof.
  intros Hrt Hram. rewrite (parse_request_detected _ _ rt) by done. cbv zeta.
  destruct (missing_for rt text) as [|q qs] eqn:Hm.
  - destruct (missing_for_nil_name _ _ Hm) as [n Hn]. rewrite Hn. eauto.
  - eauto.
Qed.

(** C6: a text in which no phrase of the keyword table occurs (as a
    substring of the lower-cased text) makes the extractor return no
    request and exactly one clarifying question; the only method of the
    extractor that was entered is the resource-type detection, so no
    name, location, parameter or tag extraction was attempted. *)
Theorem parse_request_without_keyword (text user_id : string) (w : World) :
  no_resource_keyword text ->
  parse_request clock text user_id w
    = (Ok (None, [q_type]), logged [ExtractResourceType] w).
Proof.
  intros H. unfold parse_request.
  rewrite (extract_resource_type_none _ H). reflexivity.
Qed.

(** C7: for a text with a detected resource type, every missing-question
    list that the extractor returns is one and the same subsequence of the
    fixed priority list (name, location, then for a VM the OS type and the
    admin username, for a web app the runtime), whoever calls and in
    whatever state.  The extractor returns for every such text but one
    kind: a virtual-machine text with an amount of memory of more than 4300
    digits, on which [int()] raises [ValueError] and no list is returned. *)
Theorem missing_questions_follow_priority (text : string) (rt : ResourceType) :
  extract_resource_type text = Some rt ->
  exists missing,
    sublist missing (question_priority rt)
    /\ (forall user_id w request missing' w',
          parse_request clock text user_id w = (Ok (request, missing'), w') ->
          missing' = missing)
    /\ ((rt = VIRTUAL_MACHINE -> ram_amount_too_long text = false) ->
        forall user_id w, exists request w',
          parse_request clock text user_id w = (Ok (request, missing), w'))
    /\ (rt = VIRTUAL_MACHINE -> ram_amount_too_long text = true ->
        forall user_id w, exists digits,
          Re.search_group1 ram_pattern (lower text) = Some digits
          /\ int_max_str_digits < String.length digits
          /\ parse_request clock text user_id w
             = (Raise (ValueError (int_limit_message digits)),
                logged [ExtractResourceType; ExtractName; ExtractLocation;
                        ExtractVmParameters] w)).
Proof.
  intros Hrt. exists (missing_for rt text). split_and!.
  - apply missing_for_sublist.
  - intros user_id w request missing' w' Hrun.
    destruct (decide (rt = VIRTUAL_MACHINE)) as [->|Hne].
    + destruct (ram_amount_too_long text) eqn:Hram.
      * destruct (parse_request_vm_raises text user_id w Hrt Hram)
          as (digits & _ & _ & Hraise).
        rewrite Hraise in Hrun. discriminate.
      * destruct (parse_request_returns text user_id _ w Hrt (fun _ => Hram))
          as (request0 & w0 & Hret).
        rewrite Hret in Hrun. by injection Hrun as _ <- _.
    + destruct (parse_request_returns text user_id _ w Hrt) as (request0 & w0 & Hret);
        [done|].
      rewrite Hret in Hrun. by injection Hrun as _ <- _.
  - intros Hram user_id w. by apply parse_request_returns.
  - intros -> Hram user_id w. by apply parse_request_vm_raises.
Qed.

(** C9: for a text detected as a storage-account request the extractor
    always fills both storage slots (account type and access tier, with
    Standard_LRS and Hot when no keyword matches), and its missing list can
    only hold the name and the region question, in this order.  On
    "I need a storage account" it returns no request, these two questions,
    and the storage parameters are the two defaults. *)
Theorem storage_slots_never_missing :
  (forall text : string,
      extract_resource_type text = Some STORAGE_ACCOUNT ->
      let params := extract_storage_parameters text in
      is_Some (params !! "account_type") /\ is_Some (params !! "access_tier")
      /\ (str_in "premium" (lower text) = false ->
          str_in "geo" (lower text) = false ->
          str_in "redundant" (lower text) = false ->
          params !! "account_type" = Some (PStorage STANDARD_LRS))
      /\ (str_in "cool" (lower text) = false ->
          params !! "access_tier" = Some (PStr "Hot"))
      /\ exists missing,
           sublist missing [q_name; q_location]
           /\ forall user_id w, exists request w',
                parse_request clock text user_id w = (Ok (request, missing), w'))
  /\ (forall user_id w,
        parse_request clock "I need a storage account" user_id w
          = (Ok (None, ["What would you like to name this resource?";
                        "Which Azure region would you prefer?"]),
             logged [ExtractResourceType; ExtractName; ExtractLocation;
                     ExtractStorageParameters; ExtractTags] w))
  /\ extract_storage_parameters "I need a storage account"
       = <["access_tier" := PStr "Hot"]>
           (<["account_type" := PStorage STANDARD_LRS]> ∅).
Proof.
  split; [|split].
  - intros text Hrt params. subst params. unfold extract_storage_parameters.
    repeat split.
    + repeat case_match; rewrite ?lookup_insert_ne, ?lookup_insert_eq by done; eauto.
    + repeat case_match; rewrite ?lookup_insert_eq by done; eauto.
    + intros -> Hg Hr. rewrite Hg, Hr. cbn.
      case_match; rewrite ?lookup_insert_ne, ?lookup_insert_eq by done; done.
    + intros ->. by rewrite lookup_insert_eq.
    + exists (missing_for STORAGE_ACCOUNT text). split.
      * apply (missing_for_sublist STORAGE_ACCOUNT).
      * intros user_id w. by apply parse_request_returns.
  - intros user_id w.
    rewrite (parse_request_detected _ _ STORAGE_ACCOUNT)
      by first [discriminate | vm_compute; reflexivity].
    cbv zeta.
    replace (missing_for STORAGE_ACCOUNT "I need a storage account")
      with [q_name; q_location] by (vm_compute; reflexivity).
    reflexivity.
  - vm_compute. reflexivity.
Qed.

(** C8: on "Create a Windows VM named web01 in East US, username admin"
    the extractor returns a complete virtual-machine request with location
    "East Us", VM type windows, admin username "admin" and an empty missing
    list, but its name is "admin", not "web01": the first name pattern,
    [name\s+...], is tried over the whole text before [named\s+...] and
    matches "name admin" inside "username admin".  The third pattern alone
    finds "web01". *)
Theorem scenario_A_name_is_admin (user_id : string) (w : World) :
  exists request,
    parse_request clock "Create a Windows VM named web01 in East US, username admin"
                  user_id w
      = (Ok (Some request, []),
         ticked 1 (logged [ExtractResourceType; ExtractName; ExtractLocation;
                           ExtractVmParameters; ExtractTags] w))
    /\ resource_type request = VIRTUAL_MACHINE
    /\ name request = "admin"
    /\ name request <> "web01"
    /\ location request = Some "East Us"
    /\ parameters request !! "vm_type" = Some (PVm WINDOWS)
    /\ parameters request !! "admin_username" = Some (PStr "admin")
    /\ Re.search_group1
         (Re.Cat (Re.lit true "named") (Re.Cat (Re.Rep 1 Re.is_space) name_token))
         "Create a Windows VM named web01 in East US, username admin"
       = Some "web01".
Proof.
  set (text := "Create a Windows VM named web01 in East US, username admin").
  rewrite (parse_request_detected _ _ VIRTUAL_MACHINE)
    by first [intros _; vm_compute; reflexivity | vm_compute; reflexivity].
  cbv zeta.
  replace (missing_for VIRTUAL_MACHINE text) with (@nil string)
    by (vm_compute; reflexivity).
  replace (extract_name text) with (Some "admin") by (vm_compute; reflexivity).
  eexists. split; [reflexivity|]. cbn [resource_type name location parameters].
  repeat split; try (vm_compute; reflexivity).
  discriminate.
Qed.

End ExtractorFacts.

(** ** Properties of the agent *)

Section AgentFacts.
Import PyStr NLPProcessor MonadM Spec.

Variable config : Config.
Variable clock : nat -> datetime.
Variable backend_provision : nat -> ResourceRequest -> ProvisioningResponse.
Variable backend_list : nat -> list Resource.

Lemma hour_range (t : datetime) : (0 <= Datetime.hour t < 24)%Z.
Proof. unfold Datetime.hour. apply Z.mod_pos_bound. done. Qed.

(** An hour of the day minus 24 is never an hour of the day. *)
Lemma replace_hour_minus_24 (t now : datetime) :
  replace_hour t (Datetime.hour now - 24) = Raise (ValueError "hour must be in 0..23").
Proof.
  unfold replace_hour. pose proof (hour_range now) as H.
  destruct (0 <=? Datetime.hour now - 24)%Z eqn:E; [|reflexivity].
  apply Z.leb_le in E. lia.
Qed.

(** With its default argument the clean-up raises before it looks at the
    store. *)
Lemma cleanup_default_raises (w : World) :
  _cleanup_old_contexts clock 24 w
    = (Raise (ValueError "hour must be in 0..23"), ticked 2 w).
Proof.
  destruct w as [cs pc lc nc cr].
  unfold _cleanup_old_contexts.
  cbv [mbind M_bind bind utcnow lift].
  cbn [clock_reads conversation_contexts provision_calls list_calls nlp_calls].
  rewrite replace_hour_minus_24. reflexivity.
Qed.

(** Hence [process_message] answers every message with the generic error
    text and changes nothing but the number of clock readings. *)
Lemma process_message_always_errors (user_id conversation_id message : string)
    (w : World) :
  process_message config clock backend_list user_id conversation_id message w
    = (Ok (text_message error_text), ticked 2 w).
Proof.
  unfold process_message, try_except.
  cbv [mbind M_bind bind]. rewrite cleanup_default_raises. reflexivity.
Qed.

(** *** Stepping through the context store *)

Lemma get_context_existing (user_id conversation_id : string) (w : World)
    (c : ConversationContext) :
  conversation_contexts w !! context_key user_id conversation_id = Some c ->
  _get_conversation_context clock user_id conversation_id w
    = (Ok (context_key user_id conversation_id),
       with_contexts
         (alter (set_last_activity (clock (clock_reads w)))
                (context_key user_id conversation_id) (conversation_contexts w))
         (ticked 1 w)).
Proof.
  intros H. destruct w as [cs pc lc nc cr]. cbn in H.
  unfold _get_conversation_context, write_context.
  cbv [mbind M_bind mret M_ret bind pure get_contexts set_contexts utcnow].
  cbn [conversation_contexts provision_calls list_calls nlp_calls clock_reads].
  rewrite H. reflexivity.
Qed.

Lemma get_context_fresh (user_id conversation_id : string) (w : World) :
  conversation_contexts w !! context_key user_id conversation_id = None ->
  _get_conversation_context clock user_id conversation_id w
    = (Ok (context_key user_id conversation_id),
       with_contexts
         (alter (set_last_activity (clock (2 + clock_reads w)))
                (context_key user_id conversation_id)
                (<[context_key user_id conversation_id :=
                     mkConversationContext user_id conversation_id None [] ∅
                       (clock (clock_reads w)) (clock (1 + clock_reads w))]>
                   (conversation_contexts w)))
         (ticked 3 w)).
Proof.
  intros H. destruct w as [cs pc lc nc cr]. cbn in H.
  unfold _get_conversation_context, write_context.
  cbv [mbind M_bind mret M_ret bind pure get_contexts set_contexts utcnow].
  cbn [conversation_contexts provision_calls list_calls nlp_calls clock_reads].
  rewrite H. reflexivity.
Qed.

Lemma read_context_run (key : string) (w : World) (c : ConversationContext) :
  conversation_contexts w !! key = Some c -> read_context key w = (Ok c, w).
Proof. intros H. unfold read_context. by rewrite H. Qed.

Lemma write_context_run (key : string) (f : ConversationContext -> ConversationContext)
    (w : World) :
  write_context key f w = (Ok tt, with_contexts (alter f key (conversation_contexts w)) w).
Proof. reflexivity. Qed.

Lemma idle_clear_fields (c : ConversationContext) : idle (clear_fields c).
Proof. by repeat split. Qed.

Lemma generate_response_completed (r : ResourceRequest) :
  generate_response r "completed"
    = "✅ Your " +:+ title (replace_char "_" " " (ResourceType_value (resource_type r)))
        +:+ " '" +:+ name r +:+ "' has been successfully created in "
        +:+ match location r with Some l => l | None => "None" end +:+ "!".
Proof. reflexivity. Qed.

(** C5: when the context of the conversation holds a request, confirming
    calls the provisioning collaborator exactly once, with that request,
    and whatever status comes back the context's current request, pending
    questions and collected parameters are cleared when the call returns;
    status Completed gives the success message, every other status the
    failure message that ends with the collaborator's message text. *)
Theorem confirm_true_provisions_and_clears (user_id conversation_id : string)
    (w : World) (context : ConversationContext) (request : ResourceRequest) :
  conversation_contexts w !! context_key user_id conversation_id = Some context ->
  current_request context = Some request ->
  let response := backend_provision (length (provision_calls w)) request in
  exists reply w',
    confirm_and_provision clock backend_provision user_id conversation_id true w
      = (Ok reply, w')
    /\ provision_calls w' = (provision_calls w ++ [request])%list
    /\ (exists c', conversation_contexts w' !! context_key user_id conversation_id
                     = Some c' /\ idle c')
    /\ (status response = COMPLETED ->
        text reply
          = "✅ Your "
              +:+ title (replace_char "_" " "
                           (ResourceType_value (resp_resource_type response)))
              +:+ " '" +:+ resource_name response
              +:+ "' has been successfully created in "
              +:+ resp_location response +:+ "!")
    /\ (status response <> COMPLETED ->
        text reply = "âŒ Failed to create resource: " +:+ message response).
Proof.
  intros Hctx Hreq response.
  unfold confirm_and_provision. cbv [mbind M_bind bind].
  rewrite (get_context_existing _ _ _ _ Hctx).
  rewrite (read_context_run _ _ (set_last_activity (clock (clock_reads w)) context))
    by (cbn; by rewrite lookup_alter_eq, Hctx).
  cbn [current_request set_last_activity]. rewrite Hreq. cbn [negb].
  unfold try_except, provision_resource.
  cbn [provision_calls with_contexts ticked].
  fold response. rewrite write_context_run.
  destruct (bool_decide (status response = COMPLETED)) eqn:E.
  - apply bool_decide_eq_true in E.
    unfold new_ResourceRequest. cbv [mbind M_bind mret M_ret bind pure utcnow].
    eexists _, _. split; [reflexivity|].
    cbn [provision_calls with_contexts conversation_contexts text text_message].
    split; [reflexivity|]. split; [|split].
    + eexists. split.
      * rewrite lookup_alter_eq, lookup_alter_eq, Hctx. reflexivity.
      * apply idle_clear_fields.
    + intros _. apply generate_response_completed.
    + intros Hne. by destruct Hne.
  - apply bool_decide_eq_false in E.
    cbv [mret M_ret pure].
    eexists _, _. split; [reflexivity|].
    cbn [provision_calls with_contexts conversation_contexts text text_message].
    split; [reflexivity|]. split; [|split].
    + eexists. split.
      * rewrite lookup_alter_eq, lookup_alter_eq, Hctx. reflexivity.
      * apply idle_clear_fields.
    + intros Heq. by destruct E.
    + intros _. reflexivity.
Qed.

(** C4 (as amended): for a stored context that holds a request, declining
    [confirm = false] replies with the cancellation message and clears the
    request, the pending questions and the collected parameters; for a
    stored context without a request the guard on [current_request] comes
    first: the reply is "No pending request to confirm" and the pending
    questions and collected parameters stay as they are.  In both cases the
    provisioning collaborator is not called. *)
Theorem confirm_false_cancels_pending_request (user_id conversation_id : string)
    (w : World) (context : ConversationContext) :
  conversation_contexts w !! context_key user_id conversation_id = Some context ->
  exists reply w' c',
    confirm_and_provision clock backend_provision user_id conversation_id false w
      = (Ok reply, w')
    /\ provision_calls w' = provision_calls w
    /\ conversation_contexts w' !! context_key user_id conversation_id = Some c'
    /\ match current_request context with
       | Some _ => text reply = cancelled_text /\ idle c'
       | None =>
           text reply = nothing_to_confirm_text
           /\ current_request c' = None
           /\ pending_questions c' = pending_questions context
           /\ collected_parameters c' = collected_parameters context
       end.
Proof.
  intros Hctx.
  unfold confirm_and_provision. cbv [mbind M_bind bind].
  rewrite (get_context_existing _ _ _ _ Hctx).
  rewrite (read_context_run _ _ (set_last_activity (clock (clock_reads w)) context))
    by (cbn; by rewrite lookup_alter_eq, Hctx).
  cbn [current_request set_last_activity].
  destruct (current_request context) as [request|] eqn:Hreq.
  - cbn [negb]. rewrite write_context_run. cbv [mret M_ret pure].
    eexists _, _, _. split; [reflexivity|].
    cbn [provision_calls with_contexts conversation_contexts ticked].
    split; [reflexivity|]. split.
    + rewrite lookup_alter_eq, lookup_alter_eq, Hctx. reflexivity.
    + split; [reflexivity | apply idle_clear_fields].
  - cbv [mret M_ret pure].
    eexists _, _, _. split; [reflexivity|].
    cbn [provision_calls with_contexts conversation_contexts ticked].
    split; [reflexivity|]. split.
    + rewrite lookup_alter_eq, Hctx. reflexivity.
    + cbn. by rewrite Hreq.
Qed.

Lemma not_a_question_name (q : string) :
  q ∈ extractor_questions -> q <> "name" /\ q <> "location".
Proof.
  unfold extractor_questions. intros H.
  repeat (apply elem_of_cons in H as [->|H]; [by split|]).
  by apply elem_of_nil in H.
Qed.

(** C2: in a context with no current request whose last pending question
    is [q], [_handle_parameter_collection] stores the answer under the key
    [q], empties the pending list, and then fails to build the request:
    the resource type it passes on is [None], so the reply is the "I'm
    having trouble understanding the parameters" text, without suggested
    actions, and the context still has no request.  The name and location
    it passes on are read under the keys "name" and "location"; as the
    answers are stored under question texts, they are "unnamed-resource"
    and the configured default location, whatever the user answered. *)
Theorem last_answer_fails_to_build_request (key q message : string) (w : World)
    (context : ConversationContext) :
  conversation_contexts w !! key = Some context ->
  pending_questions context = [q] ->
  current_request context = None ->
  exists w' answered,
    _handle_parameter_collection config clock key message w
      = (Ok (mkBotMessage trouble_text None), w')
    /\ conversation_contexts w' !! key = Some answered
    /\ provision_calls w' = provision_calls w
    /\ pending_questions answered = []
    /\ current_request answered = None
    /\ collected_parameters answered
         = <[q := message]> (collected_parameters context)
    /\ synthesized_resource_type answered = None
    /\ (q ∈ extractor_questions ->
        (forall k, is_Some (collected_parameters context !! k) ->
                   k ∈ extractor_questions) ->
        synthesized_name answered = "unnamed-resource"
        /\ synthesized_location config answered = default_location config).
Proof.
  intros Hctx Hq Hreq.
  unfold _handle_parameter_collection. cbv [mbind M_bind bind].
  rewrite (read_context_run _ _ _ Hctx). rewrite Hq.
  rewrite write_context_run. unfold try_except.
  set (answered := set_pending_questions []
         (set_collected_parameters
            (<[q := message]> (collected_parameters context)) context)).
  rewrite (read_context_run _ _ answered)
    by (cbn; by rewrite lookup_alter_eq, Hctx).
  assert (Hrt : synthesized_resource_type answered = None)
    by (unfold synthesized_resource_type; cbn; by rewrite Hreq).
  unfold new_ResourceRequest. cbv [mbind M_bind bind utcnow raise mret M_ret pure].
  rewrite Hrt.
  eexists _, answered. split; [reflexivity|].
  cbn [provision_calls with_contexts conversation_contexts].
  split; [by rewrite lookup_alter_eq, Hctx|].
  split; [reflexivity|]. split; [reflexivity|]. split; [exact Hreq|].
  split; [reflexivity|]. split; [exact Hrt|].
  intros Hin Hkeys.
  destruct (not_a_question_name q Hin) as [Hn Hl].
  unfold synthesized_name, synthesized_location. cbn [collected_parameters answered
    set_pending_questions set_collected_parameters].
  rewrite !lookup_insert_ne by done.
  destruct (collected_parameters context !! "name") as [v|] eqn:En.
  { destruct (not_a_question_name "name" (Hkeys _ (mk_is_Some _ _ En))) as [E _].
    by destruct E. }
  destruct (collected_parameters context !! "location") as [v|] eqn:El.
  { destruct (not_a_question_name "location" (Hkeys _ (mk_is_Some _ _ El))) as [_ E].
    by destruct E. }
  done.
Qed.

(** Once the dispatch is reached by a permitted user, a message with a
    listing word that is no control or help word goes to the listing path,
    whatever the context holds. *)
Lemma dispatch_listing_words (user_id conversation_id message : string) (w : World) :
  _check_user_permissions config user_id = true ->
  one_of (lower message) ["cancel"; "stop"; "abort"] = false ->
  one_of (lower message) ["help"; "what can you do"; "?"] = false ->
  any_in ["list"; "show"; "what"; "resources"] (lower message) = true ->
  dispatch_message config clock backend_list user_id conversation_id message w
    = (_get_conversation_context clock user_id conversation_id
         ≫= fun _ => _handle_list_resources backend_list user_id) w.
Proof.
  intros Hp Hc Hh Hl. unfold dispatch_message.
  rewrite Hp, Hc, Hh, Hl. reflexivity.
Qed.

End AgentFacts.

(** ** The scenarios at concrete inputs *)

Section Scenarios.
Import PyStr NLPProcessor MonadM Spec Examples.

(** C1: a stored context is 25 hours old when the next message arrives.
    The clean-up at the start of [process_message] raises (the hour of
    the day minus 24 is passed to [replace]), so the reply is the generic
    error text and the stale context is still in the store: it is not
    evicted and the message is not handled.  This is so for every
    configuration and every sender. *)
Theorem stale_context_is_not_evicted (config : Config)
    (backend_list : nat -> list Resource) (user_id conversation_id message : string) :
  (last_activity stale_context < Datetime.hours_before 24 (example_clock 0))%Z
  /\ _cleanup_old_contexts example_clock 24 (world_with "alice:conv1" stale_context)
       = (Raise (ValueError "hour must be in 0..23"),
          ticked 2 (world_with "alice:conv1" stale_context))
  /\ exists w',
       process_message config example_clock backend_list
                       user_id conversation_id message
                       (world_with "alice:conv1" stale_context)
         = (Ok (text_message error_text), w')
       /\ conversation_contexts w' !! "alice:conv1" = Some stale_context.
Proof.
  split; [by vm_compute|]. split; [apply cleanup_default_raises|].
  eexists. split; [apply process_message_always_errors|].
  vm_compute. reflexivity.
Qed.

(** C3: a fresh agent receives the complete message of scenario A and then
    "yes".  The first message gets the generic error reply and leaves no
    request behind, so the confirmation finds nothing to confirm: the
    provisioning collaborator is called zero times, not once, whatever the
    configuration, the clock and the collaborator. *)
Theorem round_trip_makes_no_provisioning_call (config : Config)
    (clock : nat -> datetime)
    (backend_provision : nat -> ResourceRequest -> ProvisioningResponse)
    (backend_list : nat -> list Resource) :
  exists w1 w2,
    on_message_activity config clock backend_provision backend_list
      "alice" "conv1" "Create a Windows VM named web01 in East US, username admin"
      empty_world
      = (Ok (text_message error_text), w1)
    /\ conversation_contexts w1 = ∅
    /\ on_message_activity config clock backend_provision backend_list
         "alice" "conv1" "yes" w1
       = (Ok (text_message nothing_to_confirm_text), w2)
    /\ provision_calls w2 = [].
Proof.
  exists (ticked 2 empty_world).
  eexists. split.
  - unfold on_message_activity, try_except. cbv [mbind M_bind bind].
    rewrite process_message_always_errors. reflexivity.
  - split; [reflexivity|].
    unfold on_message_activity, try_except. cbv [mbind M_bind bind].
    rewrite process_message_always_errors.
    change (one_of (lower "yes") ["yes"; "no"]) with true. cbv iota.
    change (String.eqb (lower "yes") "yes") with true.
    split; [vm_compute; reflexivity|]. reflexivity.
Qed.

(** C10: [process_message] answers "list resources" with the generic error
    text in every state, for every configuration: the listing path is not
    entered (no call of [list_resources]) and the store is as before, so
    nothing is recorded as an answer and pending questions are unchanged.
    The dispatch behind the clean-up, run on its own in a state with two
    pending questions, does take the listing path and leaves the pending
    questions alone. *)
Theorem listing_message_gets_error_reply (config : Config) (clock : nat -> datetime)
    (backend_list : nat -> list Resource) (w : World) :
  (exists w',
     process_message config clock backend_list "alice" "conv1" "list resources" w
       = (Ok (text_message error_text), w')
     /\ list_calls w' = list_calls w
     /\ conversation_contexts w' = conversation_contexts w)
  /\ exists reply w'' c,
       dispatch_message open_config example_clock no_resources
         "alice" "conv1" "list resources"
         (world_with "alice:conv1" collecting_context)
         = (Ok reply, w'')
       /\ text reply = "No resources found in the default resource group."
       /\ list_calls w'' = 1
       /\ conversation_contexts w'' !! "alice:conv1" = Some c
       /\ pending_questions c = pending_questions collecting_context
       /\ collected_parameters c = collected_parameters collecting_context.
Proof.
  split.
  - eexists. split; [apply process_message_always_errors|]. split; reflexivity.
  - eexists _, _, _. split; [vm_compute; reflexivity|].
    split; [reflexivity|]. split; [reflexivity|].
    split; [vm_compute; reflexivity|]. split; reflexivity.
Qed.

(** Counterexample to C4 as stated: the context has pending questions
    and no request; after [confirm = false] the reply is "No pending
    request to confirm" and the pending questions are still there. *)
Lemma confirm_false_keeps_pending_questions :
  exists w' c,
    confirm_and_provision example_clock created_backend "alice" "conv1" false
      (world_with "alice:conv1" collecting_context)
      = (Ok (text_message nothing_to_confirm_text), w')
    /\ conversation_contexts w' !! "alice:conv1" = Some c
    /\ pending_questions c = [q_name; q_location]
    /\ pending_questions c <> [].
Proof.
  eexists _, _. split; [vm_compute; reflexivity|].
  split; [vm_compute; reflexivity|]. split; [reflexivity | discriminate].
Qed.

End Scenarios.

(** ** The general statements at concrete inputs *)

Section Witnesses.
Import PyStr NLPProcessor MonadM Spec Examples.

Lemma parse_request_without_keyword_witness :
  no_resource_keyword "hello there"
  /\ parse_request example_clock "hello there" "alice" empty_world
       = (Ok (None, [q_type]), logged [ExtractResourceType] empty_world).
Proof.
  assert (H : no_resource_keyword "hello there")
    by (unfold no_resource_keyword, resource_keywords;
        repeat (constructor; [repeat constructor|]); constructor).
  split; [exact H|].
  exact (parse_request_without_keyword example_clock "hello there" "alice"
           empty_world H).
Defined.

Lemma missing_questions_follow_priority_witness :
  extract_resource_type "Create a linux vm with 8 GB" = Some VIRTUAL_MACHINE
  /\ exists missing,
       sublist missing (question_priority VIRTUAL_MACHINE)
       /\ forall user_id w, exists request w',
            parse_request example_clock "Create a linux vm with 8 GB" user_id w
              = (Ok (request, missing), w').
Proof.
  assert (H : extract_resource_type "Create a linux vm with 8 GB"
              = Some VIRTUAL_MACHINE) by (vm_compute; reflexivity).
  split; [exact H|].
  destruct (missing_questions_follow_priority example_clock
              "Create a linux vm with 8 GB" VIRTUAL_MACHINE H)
    as (missing & Hsub & _ & Hret & _).
  exists missing. split; [exact Hsub|].
  apply Hret. intros _. vm_compute. reflexivity.
Defined.

Lemma storage_slots_never_missing_witness :
  extract_resource_type "Create premium blob storage called logs01" = Some STORAGE_ACCOUNT
  /\ is_Some (extract_storage_parameters "Create premium blob storage called logs01"
                !! "account_type").
Proof.
  assert (H : extract_resource_type "Create premium blob storage called logs01"
              = Some STORAGE_ACCOUNT) by (vm_compute; reflexivity).
  split; [exact H|].
  exact (proj1 (proj1 (storage_slots_never_missing example_clock)
                  "Create premium blob storage called logs01" H)).
Defined.

Lemma last_answer_fails_to_build_request_witness :
  conversation_contexts (world_with "alice:conv1" last_question_context) !! "alice:conv1"
    = Some last_question_context
  /\ pending_questions last_question_context = [q_location]
  /\ current_request last_question_context = None
  /\ exists w' answered,
       _handle_parameter_collection open_config example_clock "alice:conv1" "West US"
         (world_with "alice:conv1" last_question_context)
         = (Ok (mkBotMessage trouble_text None), w')
       /\ conversation_contexts w' !! "alice:conv1" = Some answered
       /\ collected_parameters answered
            = <[q_location := "West US"]> (collected_parameters last_question_context).
Proof.
  assert (H1 : conversation_contexts (world_with "alice:conv1" last_question_context)
                 !! "alice:conv1" = Some last_question_context)
    by (vm_compute; reflexivity).
  assert (H2 : pending_questions last_question_context = [q_location]) by reflexivity.
  assert (H3 : current_request last_question_context = None) by reflexivity.
  split; [exact H1|]. split; [exact H2|]. split; [exact H3|].
  destruct (last_answer_fails_to_build_request open_config example_clock
              "alice:conv1" q_location "West US" _ _ H1 H2 H3)
    as (w' & answered & Hrun & Hlookup & _ & _ & _ & Hcollected & _).
  exists w', answered. split; [exact Hrun|]. split; [exact Hlookup | exact Hcollected].
Defined.

Lemma confirm_false_cancels_pending_request_witness :
  conversation_contexts (world_with "alice:conv1" awaiting_context)
    !! context_key "alice" "conv1" = Some awaiting_context
  /\ exists reply w' c',
       confirm_and_provision example_clock created_backend "alice" "conv1" false
         (world_with "alice:conv1" awaiting_context) = (Ok reply, w')
       /\ provision_calls w' = []
       /\ conversation_contexts w' !! context_key "alice" "conv1" = Some c'
       /\ text reply = cancelled_text /\ idle c'.
Proof.
  assert (H : conversation_contexts (world_with "alice:conv1" awaiting_context)
                !! context_key "alice" "conv1" = Some awaiting_context)
    by (vm_compute; reflexivity).
  split; [exact H|].
  exact (confirm_false_cancels_pending_request example_clock created_backend
           "alice" "conv1" _ _ H).
Defined.

Lemma confirm_true_provisions_and_clears_witness :
  conversation_contexts (world_with "alice:conv1" awaiting_context)
    !! context_key "alice" "conv1" = Some awaiting_context
  /\ current_request awaiting_context = Some example_request
  /\ exists reply w',
       confirm_and_provision example_clock failing_backend "alice" "conv1" true
         (world_with "alice:conv1" awaiting_context) = (Ok reply, w')
       /\ provision_calls w' = [example_request]
       /\ (exists c', conversation_contexts w' !! context_key "alice" "conv1" = Some c'
                      /\ idle c').
Proof.
  assert (H1 : conversation_contexts (world_with "alice:conv1" awaiting_context)
                 !! context_key "alice" "conv1" = Some awaiting_context)
    by (vm_compute; reflexivity).
  assert (H2 : current_request awaiting_context = Some example_request) by reflexivity.
  split; [exact H1|]. split; [exact H2|].
  destruct (confirm_true_provisions_and_clears example_clock failing_backend
              "alice" "conv1" _ _ _ H1 H2)
    as (reply & w' & Hrun & Hcalls & Hidle & _).
  exists reply, w'. split; [exact Hrun|]. split; [exact Hcalls | exact Hidle].
Defined.

End Witnesses.

(** ** Substring tests and the matcher: what the models of [in] and [re] give *)

Section StringFacts.
Import PyStr Re.

Lemma append_cons (x : ascii) (a b : string) : String x a +:+ b = String x (a +:+ b).
Proof. reflexivity. Qed.

Lemma append_empty_l (a : string) : EmptyString +:+ a = a.
Proof. reflexivity. Qed.

Lemma append_assoc_str (a b c : string) : (a +:+ b) +:+ c = a +:+ (b +:+ c).
Proof.
  induction a as [|x a IH]; [reflexivity|].
  rewrite !append_cons. f_equal. exact IH.
Qed.

Lemma starts_with_spec (p s : string) :
  starts_with p s = true <-> exists post, s = p +:+ post.
Proof.
  revert s. induction p as [|a p IH]; intros s; cbn [starts_with].
  - split; [intros _; by exists s | done].
  - destruct s as [|b s].
    + split; [done | intros [post H]; rewrite append_cons in H; discriminate].
    + rewrite andb_true_iff, IH. split.
      * intros [Hab [post ->]]. apply Ascii.eqb_eq in Hab as ->. by exists post.
      * intros [post H]. rewrite append_cons in H. injection H as -> ->.
        split; [apply Ascii.eqb_refl | by exists post].
Qed.

(** [str_in needle hay] holds exactly when [needle] is a contiguous part of
    [hay]. *)
Lemma str_in_spec (needle hay : string) :
  str_in needle hay = true <-> exists pre post, hay = pre +:+ needle +:+ post.
Proof.
  induction hay as [|c hay IH].
  - cbn [str_in]. rewrite orb_false_r, starts_with_spec. split.
    + intros [post H]. by exists EmptyString, post.
    + intros [pre [post H]].
      destruct pre; [by exists post | rewrite append_cons in H; discriminate].
  - cbn [str_in]. rewrite orb_true_iff, starts_with_spec, IH. split.
    + intros [[post H] | [pre [post H]]].
      * by exists EmptyString, post.
      * exists (String c pre), post. rewrite append_cons. by rewrite H.
    + intros [pre [post H]]. destruct pre as [|d pre].
      * left. by exists post.
      * right. rewrite append_cons in H. injection H as -> ->. by exists pre, post.
Qed.

Lemma str_in_trans (a b c : string) :
  str_in a b = true -> str_in b c = true -> str_in a c = true.
Proof.
  rewrite !str_in_spec. intros (p1 & q1 & ->) (p2 & q2 & ->).
  exists (p2 +:+ p1), (q1 +:+ q2).
  by rewrite !append_assoc_str.
Qed.

Lemma any_in_true (words : list string) (text w : string) :
  w ∈ words -> str_in w text = true -> any_in words text = true.
Proof.
  intros Hin Hw. unfold any_in. apply existsb_exists. exists w.
  split; [by apply list_elem_of_In | done].
Qed.

Lemma any_in_witness (words : list string) (text : string) :
  any_in words text = true -> exists w, w ∈ words /\ str_in w text = true.
Proof.
  unfold any_in. intros (w & Hin & Hw)%existsb_exists.
  exists w. split; [by apply list_elem_of_In | done].
Qed.

End StringFacts.

Section MatcherFacts.
Import PyStr Re Spec2.

Lemma length_append (a b : string) :
  String.length (a +:+ b) = String.length a + String.length b.
Proof.
  induction a as [|x a IH]; [reflexivity|].
  rewrite append_cons. cbn [String.length]. by rewrite IH.
Qed.

Lemma take_str_append (a b : string) :
  take_str (String.length (a +:+ b) - String.length b) (a +:+ b) = a.
Proof.
  rewrite length_append.
  replace (String.length a + String.length b - String.length b)
    with (String.length a) by lia.
  induction a as [|x a IH]; [by destruct b|].
  rewrite append_cons. cbn [String.length take_str]. by rewrite IH.
Qed.

Lemma all_chars_append (p : ascii -> bool) (a b : string) :
  all_chars p (a +:+ b) = all_chars p a && all_chars p b.
Proof.
  induction a as [|x a IH]; [reflexivity|].
  rewrite append_cons. cbn [all_chars]. by rewrite IH, andb_assoc.
Qed.

(** What a greedy repetition hands to its continuation: the input minus a
    run of at least [n] characters of the class. *)
Lemma rep_greedy_inv {A} (p : ascii -> bool) (n : nat) (s : string)
    (k : string -> option A) (r : A) :
  rep_greedy p n s k = Some r ->
  exists run rest,
    s = run +:+ rest /\ all_chars p run = true /\ n <= String.length run
    /\ k rest = Some r.
Proof.
  revert n. induction s as [|c s IH]; intros n H; cbn [rep_greedy] in H.
  - destruct n; [|discriminate].
    exists EmptyString, EmptyString. split_and!; [done | done | cbn; lia | done].
  - assert (Hstop : match n with 0 => k (String c s) | S _ => None end = Some r ->
                    exists run rest, String c s = run +:+ rest /\ all_chars p run = true
                                     /\ n <= String.length run /\ k rest = Some r).
    { destruct n; [|discriminate]. intros Hk.
      exists EmptyString, (String c s). split_and!; [done | done | cbn; lia | done]. }
    destruct (p c) eqn:Hp; [|by apply Hstop].
    destruct (rep_greedy p (Nat.pred n) s k) as [r'|] eqn:E; [|by apply Hstop].
    injection H as ->.
    destruct (IH _ E) as (run & rest & -> & Hall & Hlen & Hk).
    exists (String c run), rest. rewrite append_cons. cbn [all_chars String.length].
    rewrite Hp, Hall. split_and!; [done | done | lia | done].
Qed.

(** A successful match ends in the continuation, on a suffix of the input. *)
Lemma rmatch_inv {A} (r : regex) (s : string) (g : option string)
    (k : string -> option string -> option A) (x : A) :
  rmatch r s g k = Some x ->
  exists consumed rest g', s = consumed +:+ rest /\ k rest g' = Some x.
Proof.
  revert s g k. induction r as [|p|r1 IH1 r2 IH2|r1 IH1 r2 IH2|n p|r1 IH1];
    intros s g k H; cbn [rmatch] in H.
  - by exists EmptyString, s, g.
  - destruct s as [|c s]; [discriminate|]. destruct (p c); [|discriminate].
    exists (String c EmptyString), s, g. by split.
  - destruct (IH1 _ _ _ H) as (c1 & s1 & g1 & -> & H1).
    destruct (IH2 _ _ _ H1) as (c2 & s2 & g2 & -> & H2).
    exists (c1 +:+ c2), s2, g2. by rewrite append_assoc_str.
  - destruct (rmatch r1 s g k) as [y|] eqn:E.
    + injection H as ->. by apply IH1 in E.
    + by apply IH2 in H.
  - destruct (rep_greedy_inv _ _ _ _ _ H) as (run & rest & -> & _ & _ & Hk).
    by exists run, rest, g.
  - destruct (IH1 _ _ _ H) as (c1 & s1 & g1 & -> & H1).
    by exists c1, s1, (Some (take_str (String.length (c1 +:+ s1) - String.length s1)
                                     (c1 +:+ s1))).
Qed.

(** A pattern that ends in [(p+)], run to the end, captures a non-empty run
    of [p] that stands in the input. *)
Lemma ends_in_group_capture (p : ascii -> bool) (r : regex) (s : string)
    (g0 : option string) (g : option string) :
  ends_in_group p r ->
  rmatch r s g0 (fun _ g => Some g) = Some g ->
  exists tok, g = Some tok /\ token_of p tok /\ str_in tok s = true.
Proof.
  intros Hr. revert s g0. induction Hr as [|a r Hr IH]; intros s g0 H; cbn [rmatch] in H.
  - destruct (rep_greedy_inv _ _ _ _ _ H) as (run & rest & -> & Hall & Hlen & Hk).
    rewrite take_str_append in Hk. injection Hk as <-.
    exists run. split; [done|]. split.
    + split; [|done]. intros ->. cbn in Hlen. lia.
    + apply str_in_spec. by exists EmptyString, rest.
  - destruct (rmatch_inv _ _ _ _ _ H) as (c1 & s1 & g1 & -> & H1).
    destruct (IH _ _ H1) as (tok & -> & Htok & Hin).
    exists tok. split; [done|]. split; [done|].
    apply str_in_spec in Hin as (pre & post & ->).
    apply str_in_spec. exists (c1 +:+ pre), post. by rewrite append_assoc_str.
Qed.

Lemma search_group1_token (p : ascii -> bool) (r : regex) (s tok : string) :
  ends_in_group p r ->
  search_group1 r s = Some tok ->
  token_of p tok /\ str_in tok s = true.
Proof.
  intros Hr. unfold search_group1.
  destruct (search r s) as [[g|]|] eqn:E; try discriminate.
  intros [= ->].
  induction s as [|c s IH]; cbn [search] in E.
  - destruct (rmatch r EmptyString None (fun _ g => Some g)) as [g|] eqn:Em; [|discriminate].
    injection E as ->.
    destruct (ends_in_group_capture _ _ _ _ _ Hr Em) as (t & [= <-] & Ht & Hin). done.
  - destruct (rmatch r (String c s) None (fun _ g => Some g)) as [g|] eqn:Em.
    + injection E as ->.
      destruct (ends_in_group_capture _ _ _ _ _ Hr Em) as (t & [= <-] & Ht & Hin). done.
    + destruct (IH E) as [Ht Hin]. split; [done|].
      apply str_in_spec in Hin as (pre & post & ->).
      apply str_in_spec. exists (String c pre), post. by rewrite append_cons.
Qed.

End MatcherFacts.

(** ** More on the slot extractor *)

Section ExtractorMore.
Import PyStr Re NLPProcessor Spec Spec2.

Local Ltac in_list :=
  repeat first [apply list_elem_of_here | apply list_elem_of_further].

(** X1: a detected resource type always stands in the keyword table with a
    keyword that occurs in the lower-cased text, so load balancers,
    cognitive services and machine-learning workspaces are never detected;
    and no type is detected only if no keyword of the table occurs. *)
Theorem detected_type_comes_from_keyword (text : string) :
  match extract_resource_type text with
  | Some rt =>
      (exists keywords keyword,
          (rt, keywords) ∈ resource_keywords /\ keyword ∈ keywords
          /\ str_in keyword (lower text) = true)
      /\ rt <> LOAD_BALANCER /\ rt <> COGNITIVE_SERVICE
      /\ rt <> MACHINE_LEARNING_WORKSPACE
  | None => no_resource_keyword text
  end.
Proof.
  unfold extract_resource_type.
  destruct (List.find _ resource_keywords) as [[rt kws]|] eqn:E.
  - apply find_some in E as [Hin Hany]. cbn [fst snd] in *.
    apply any_in_witness in Hany as (kw & Hkw & Hstr).
    split.
    + exists kws, kw. split; [by apply list_elem_of_In | done].
    + unfold resource_keywords in Hin. cbn in Hin.
      repeat (destruct Hin as [[= <- <-]|Hin]; [by repeat split|]). done.
  - unfold no_resource_keyword. apply Forall_forall. intros entry Hentry.
    apply Forall_forall. intros kw Hkw.
    pose proof (find_none _ _ E entry (proj1 (list_elem_of_In _ _) Hentry)) as Hnone.
    cbn in Hnone. destruct (str_in kw (lower text)) eqn:Hs; [|done].
    rewrite (any_in_true _ _ kw Hkw Hs) in Hnone. done.
Qed.

Lemma vm_keyword_selects_vm (text keyword : string) :
  keyword ∈ ["vm"; "virtual machine"; "server"; "instance"; "compute";
             "windows server"; "linux server"; "ubuntu"; "centos"] ->
  str_in keyword (lower text) = true ->
  extract_resource_type text = Some VIRTUAL_MACHINE.
Proof.
  intros Hin Hs. unfold extract_resource_type, resource_keywords.
  cbn [List.find snd fst]. by rewrite (any_in_true _ _ keyword Hin Hs).
Qed.

(** X2: five keywords of the table contain a keyword of an earlier entry and
    therefore never select the type they are listed under: a text with
    "sql server" or "container instance" is a virtual-machine request
    (through "server" and "instance"), and a text with "document database",
    "container cluster" or "microservices" is never a Cosmos DB resp. AKS
    request. *)
Theorem shadowed_keyword_never_selects_its_type (text keyword : string)
    (rt : ResourceType) :
  (keyword, rt) ∈ shadowed_keywords ->
  str_in keyword (lower text) = true ->
  (exists keywords, (rt, keywords) ∈ resource_keywords /\ keyword ∈ keywords)
  /\ extract_resource_type text <> Some rt
  /\ (keyword = "sql server" \/ keyword = "container instance" ->
      extract_resource_type text = Some VIRTUAL_MACHINE).
Proof.
  intros Hin Hs. unfold shadowed_keywords in Hin.
  assert (Hsub : forall short, str_in short keyword = true ->
                               str_in short (lower text) = true)
    by (intros short Hshort; by apply (str_in_trans _ keyword)).
  repeat (apply elem_of_cons in Hin as [[= -> ->]|Hin]); [..|by apply elem_of_nil in Hin].
  - assert (Hvm : extract_resource_type text = Some VIRTUAL_MACHINE).
    { apply (vm_keyword_selects_vm _ "server"); [in_list|]. by apply Hsub. }
    split; [|split].
    + eexists. split; [unfold resource_keywords|]; in_list.
    + by rewrite Hvm.
    + done.
  - assert (Hvm : extract_resource_type text = Some VIRTUAL_MACHINE).
    { apply (vm_keyword_selects_vm _ "instance"); [in_list|]. by apply Hsub. }
    split; [|split].
    + eexists. split; [unfold resource_keywords|]; in_list.
    + by rewrite Hvm.
    + done.
  - split; [|split].
    + eexists. split; [unfold resource_keywords|]; in_list.
    + unfold extract_resource_type, resource_keywords. cbn [List.find snd fst].
      assert (Hdb : any_in ["sql"; "database"; "sql database"; "sql server";
                            "relational database"; "rdbms"] (lower text) = true).
      { apply (any_in_true _ _ "database"); [in_list|]. by apply Hsub. }
      rewrite Hdb. repeat match goal with
             | |- context [if any_in ?l ?t then _ else _] =>
                 destruct (any_in l t); [by cbv beta iota delta [fst]|]
             end.
      by cbv beta iota delta [fst].
    + intros [[=]|[=]].
  - split; [|split].
    + eexists. split; [unfold resource_keywords|]; in_list.
    + unfold extract_resource_type, resource_keywords. cbn [List.find snd fst].
      assert (Hc : any_in ["container"; "aci"; "container instance"; "docker";
                           "containerized"; "microservice"] (lower text) = true).
      { apply (any_in_true _ _ "container"); [in_list|]. by apply Hsub. }
      rewrite Hc. repeat match goal with
             | |- context [if any_in ?l ?t then _ else _] =>
                 destruct (any_in l t); [by cbv beta iota delta [fst]|]
             end.
      by cbv beta iota delta [fst].
    + intros [[=]|[=]].
  - split; [|split].
    + eexists. split; [unfold resource_keywords|]; in_list.
    + unfold extract_resource_type, resource_keywords. cbn [List.find snd fst].
      assert (Hc : any_in ["container"; "aci"; "container instance"; "docker";
                           "containerized"; "microservice"] (lower text) = true).
      { apply (any_in_true _ _ "microservice"); [in_list|]. by apply Hsub. }
      rewrite Hc. repeat match goal with
             | |- context [if any_in ?l ?t then _ else _] =>
                 destruct (any_in l t); [by cbv beta iota delta [fst]|]
             end.
      by cbv beta iota delta [fst].
    + intros [[=]|[=]].
Qed.

(** X3: [extract_location] returns one of five display names, "East Us",
    "West Us", "Central Us", "North Europe", "West Europe", namely that of a
    region one of whose aliases occurs in the lower-cased text; it returns
    nothing only if no alias of the table occurs. *)
Theorem extract_location_result (text : string) :
  match extract_location text with
  | Some l =>
      l ∈ region_names
      /\ exists region aliases alias,
           (region, aliases) ∈ location_patterns /\ alias ∈ aliases
           /\ str_in alias (lower text) = true
           /\ l = title (replace_char "_" " " region)
  | None =>
      forall region aliases alias,
        (region, aliases) ∈ location_patterns -> alias ∈ aliases ->
        str_in alias (lower text) = false
  end.
Proof.
  unfold extract_location.
  destruct (List.find _ location_patterns) as [[region aliases]|] eqn:E.
  - apply find_some in E as [Hin Hany]. cbn [fst snd] in *.
    apply any_in_witness in Hany as (alias & Halias & Hstr).
    split.
    + unfold location_patterns in Hin. cbn in Hin. unfold region_names.
      repeat (destruct Hin as [[= <- <-]|Hin]; [vm_compute; in_list|]). done.
    + exists region, aliases, alias. split; [by apply list_elem_of_In | done].
  - intros region aliases alias Hentry Halias.
    pose proof (find_none _ _ E _ (proj1 (list_elem_of_In _ _) Hentry)) as Hnone.
    cbn [snd] in Hnone. destruct (str_in alias (lower text)) eqn:Hs; [|done].
    rewrite (any_in_true _ _ alias Halias Hs) in Hnone. done.
Qed.

Lemma name_patterns_end_in_token :
  Forall (ends_in_group is_name_char) name_patterns.
Proof.
  unfold name_patterns, name_token.
  repeat (constructor; [repeat first [apply ends_group | apply ends_cat]|]).
  constructor.
Qed.

(** X4: a name found by [extract_name] is a non-empty run of letters,
    digits, '-' and '_' that occurs in the text as written. *)
Theorem extracted_name_is_token (text name : string) :
  extract_name text = Some name ->
  token_of is_name_char name /\ str_in name text = true.
Proof.
  unfold extract_name. pose proof name_patterns_end_in_token as Hall.
  induction Hall as [|r rs Hr _ IH]; cbn [first_match]; [discriminate|].
  destruct (search_group1 r text) as [g|] eqn:E; [|exact IH].
  intros [= ->]. by apply (search_group1_token is_name_char r).
Qed.

End ExtractorMore.

Section ParameterFacts.
Import PyStr Re NLPProcessor MonadM Spec Spec2.

Local Ltac in_list :=
  repeat first [apply list_elem_of_here | apply list_elem_of_further].

Local Ltac split_finds :=
  repeat match goal with
         | |- context [match List.find ?f ?l with _ => _ end] => destruct (List.find f l)
         end.

Lemma username_pattern_ends_in_word : ends_in_group is_word username_pattern.
Proof. unfold username_pattern. repeat first [apply ends_group | apply ends_cat]. Qed.

Lemma project_pattern_ends_in_token : ends_in_group is_name_char project_pattern.
Proof.
  unfold project_pattern, name_token. repeat first [apply ends_group | apply ends_cat].
Qed.

Lemma windows_words_are_win (t : string) :
  any_in ["windows"; "win"] t = str_in "win" t.
Proof.
  unfold any_in. cbn [existsb]. rewrite orb_false_r.
  destruct (str_in "windows" t) eqn:E; [|reflexivity].
  symmetry. apply (str_in_trans _ "windows"); [reflexivity | done].
Qed.

(** When [extract_vm_parameters] returns, the conversion of the memory
    amount, if there was one, has returned. *)
Lemma extract_vm_parameters_ok (text : string) (ps : gmap string ParamValue) :
  extract_vm_parameters text = Ok ps ->
  ram_amount_too_long text = false /\ ps = returned_vm_parameters text.
Proof.
  intros H. unfold returned_vm_parameters. rewrite H. split; [|done].
  destruct (ram_amount_too_long text) eqn:E; [|done].
  destruct (extract_vm_parameters_raises _ E) as (digits & _ & _ & Hraise).
  rewrite Hraise in H. discriminate.
Qed.

(** The entry of [vm_type] in a result of [extract_vm_parameters]. *)
Lemma vm_type_entry (text : string) (ps : gmap string ParamValue) :
  extract_vm_parameters text = Ok ps ->
  ps !! "vm_type"
    = if str_in "win" (lower text) then Some (PVm WINDOWS)
      else if any_in ["linux"; "ubuntu"; "centos"; "debian"] (lower text)
           then Some (PVm LINUX) else None.
Proof.
  unfold extract_vm_parameters. rewrite windows_words_are_win.
  generalize (lower text) as t. intros t.
  unfold vm_size_patterns. cbn [fold_left snd].
  destruct (search_group1 ram_pattern t) as [digits|];
    [destruct (int_of_digits digits); [|discriminate]|];
    intros H; apply Ok_inj in H; subst ps;
    destruct (search_group1 username_pattern t);
    split_finds; rewrite ?lookup_insert_ne by done;
    repeat case_match; by rewrite ?lookup_insert_eq, ?lookup_empty.
Qed.

(** X5: the OS family in a dict that [extract_vm_parameters] returns is
    decided by substrings: the text is a Windows request exactly when "win"
    occurs in it (in any case, also inside another word, and also when
    "linux" occurs as well); it is a Linux request exactly when "win" does
    not occur and one of "linux", "ubuntu", "centos", "debian" does. *)
Theorem vm_type_is_decided_by_substrings (text : string)
    (ps : gmap string ParamValue) :
  extract_vm_parameters text = Ok ps ->
  (ps !! "vm_type" = Some (PVm WINDOWS)
     <-> str_in "win" (lower text) = true)
  /\ (ps !! "vm_type" = Some (PVm LINUX)
        <-> str_in "win" (lower text) = false
            /\ any_in ["linux"; "ubuntu"; "centos"; "debian"] (lower text) = true)
  /\ (ps !! "vm_type" = None
        <-> str_in "win" (lower text) = false
            /\ any_in ["linux"; "ubuntu"; "centos"; "debian"] (lower text) = false).
Proof.
  intros Hps. rewrite (vm_type_entry _ _ Hps).
  destruct (str_in "win" (lower text));
    destruct (any_in ["linux"; "ubuntu"; "centos"; "debian"] (lower text));
    split_and!; split; (done || by intros []).
Qed.

(** X6: when the text holds an amount of memory ("<digits> gb", "g" or
    "gigabyte(s)") of at most 4300 digits, [extract_vm_parameters] returns
    and the size of the VM is the one the RAM ladder gives for the amount
    found, whatever size code the text names as well.  With more than 4300
    digits [int()] refuses the amount and [extract_vm_parameters] raises
    [ValueError]. *)
Theorem ram_amount_overrides_size_code (text digits : string) :
  search_group1 ram_pattern (lower text) = Some digits ->
  (String.length digits <= int_max_str_digits ->
   exists ps,
     extract_vm_parameters text = Ok ps
     /\ ps !! "size" = Some (PStr (size_for_ram (decimal_value digits))))
  /\ (int_max_str_digits < String.length digits ->
      extract_vm_parameters text = Raise (ValueError (int_limit_message digits))).
Proof.
  intros H. unfold extract_vm_parameters, int_of_digits. rewrite H. split.
  - intros Hlen.
    replace (int_max_str_digits <? String.length digits)%nat with false
      by (symmetry; apply Nat.ltb_ge; exact Hlen).
    eexists. split; [reflexivity|].
    destruct (search_group1 username_pattern (lower text));
      by rewrite ?lookup_insert_ne, ?lookup_insert_eq by done.
  - intros Hlen.
    replace (int_max_str_digits <? String.length digits)%nat with true
      by (symmetry; apply Nat.ltb_lt; exact Hlen).
    reflexivity.
Qed.

(** X7: an admin username in a dict that [extract_vm_parameters] returns is
    a non-empty run of word characters taken from the lower-cased text, so
    capitals of the user's spelling are lost. *)
Theorem admin_username_is_lowercase_word (text : string)
    (ps : gmap string ParamValue) (v : ParamValue) :
  extract_vm_parameters text = Ok ps ->
  ps !! "admin_username" = Some v ->
  exists user,
    v = PStr user /\ token_of is_word user /\ str_in user (lower text) = true.
Proof.
  unfold extract_vm_parameters.
  destruct (search_group1 username_pattern (lower text)) as [user|] eqn:E.
  - destruct (search_group1 ram_pattern (lower text)) as [digits|];
      [destruct (int_of_digits digits); [|discriminate]|];
      intros H; apply Ok_inj in H; subst ps;
      rewrite lookup_insert_eq; intros [= <-];
      (exists user; split; [done|];
       exact (search_group1_token _ _ _ _ username_pattern_ends_in_word E)).
  - generalize (lower text) as t. intros t.
    unfold vm_size_patterns. cbn [fold_left snd].
    destruct (search_group1 ram_pattern t) as [digits|];
      [destruct (int_of_digits digits); [|discriminate]|];
      intros H; apply Ok_inj in H; subst ps; split_finds;
      rewrite ?lookup_insert_ne by done;
      repeat case_match; by rewrite ?lookup_insert_ne, ?lookup_empty by done.
Qed.

(** X8: [extract_webapp_parameters] always sets a plan SKU (free tier "F1"
    when none of "basic", "standard", "premium" occurs); the runtime is
    missing exactly when none of its nine keywords occurs; and a text with
    "javascript" is a Node.js request, although "java" occurs in it. *)
Theorem webapp_runtime_and_plan (text : string) :
  is_Some (extract_webapp_parameters text !! "plan_sku")
  /\ (any_in ["basic"; "standard"; "premium"] (lower text) = false ->
      extract_webapp_parameters text !! "plan_sku" = Some (PStr "F1"))
  /\ (extract_webapp_parameters text !! "runtime" = None
        <-> any_in ["node"; "javascript"; "python"; "dotnet"; "c#"; ".net";
                    "java"; "php"; "ruby"] (lower text) = false)
  /\ (str_in "javascript" (lower text) = true ->
      extract_webapp_parameters text !! "runtime" = Some (PRuntime NODE_JS)).
Proof.
  unfold extract_webapp_parameters, any_in. cbn [existsb].
  generalize (lower text) as t. intros t.
  set (runtime_part :=
         if str_in "node" t || str_in "javascript" t
         then <["runtime" := PRuntime NODE_JS]> (∅ : gmap string ParamValue)
         else _).
  assert (Hplan : forall k : string, k <> "plan_sku" ->
            (if str_in "basic" t then <["plan_sku" := PStr "B1"]> runtime_part
             else if str_in "standard" t then <["plan_sku" := PStr "S1"]> runtime_part
             else if str_in "premium" t then <["plan_sku" := PStr "P1v2"]> runtime_part
             else <["plan_sku" := PStr "F1"]> runtime_part) !! k = runtime_part !! k).
  { intros k Hk. repeat case_match; by rewrite lookup_insert_ne. }
  split_and!.
  - repeat case_match; rewrite lookup_insert_eq; eauto.
  - rewrite !orb_false_r. intros H.
    destruct (str_in "basic" t); [done|]. destruct (str_in "standard" t); [done|].
    destruct (str_in "premium" t); [done|]. by rewrite lookup_insert_eq.
  - rewrite Hplan by done. subst runtime_part.
    repeat match goal with
           | |- context [str_in ?k t] =>
               destruct (str_in k t); cbn [orb];
               [by rewrite ?lookup_insert_eq|]
           end.
    by rewrite lookup_empty.
  - rewrite Hplan by done. subst runtime_part.
    intros ->. rewrite orb_true_r. by rewrite lookup_insert_eq.
Qed.

(** X9: [extract_tags] sets at most the keys "environment" and "project";
    the environment is "production", "development" or "testing", and the
    project is a non-empty run of name characters from the lower-cased
    text.  The environment is "development" as soon as "dev" occurs
    anywhere (and "production" does not). *)
Theorem tags_have_two_possible_keys (text key value : string) :
  extract_tags text !! key = Some value ->
  (key = "environment" /\ value ∈ ["production"; "development"; "testing"]
   /\ (str_in "production" (lower text) = false ->
       str_in "dev" (lower text) = true -> value = "development"))
  \/ (key = "project" /\ token_of is_name_char value
      /\ str_in value (lower text) = true).
Proof.
  unfold extract_tags.
  set (t := lower text).
  set (env := if str_in "production" t
              then <["environment" := "production"]> (∅ : gmap string string)
              else _).
  assert (Henv : forall k v, env !! k = Some v ->
            k = "environment" /\ v ∈ ["production"; "development"; "testing"]
            /\ (str_in "production" t = false -> str_in "dev" t = true ->
                v = "development")).
  { intros k v. subst env.
    destruct (str_in "production" t); [|destruct (str_in "development" t); cbn [orb];
      [|destruct (str_in "dev" t); cbn [orb];
        [|destruct (str_in "test" t); cbn [orb];
          [|destruct (str_in "testing" t)]]]];
      rewrite ?lookup_empty; try discriminate;
      intros [[<- <-]|[_ H]]%lookup_insert_Some;
      rewrite ?lookup_empty in *; try discriminate;
      (split_and!; [done | in_list | done]). }
  intros H.
  destruct (str_in "project" t); [|left; by apply Henv].
  destruct (search_group1 project_pattern t) as [p|] eqn:E; [|left; by apply Henv].
  apply lookup_insert_Some in H as [[<- <-]|[_ H]]; [|left; by apply Henv].
  right. split; [done|].
  exact (search_group1_token _ _ _ _ project_pattern_ends_in_token E).
Qed.

End ParameterFacts.

Section ParseRequestFacts.
Import PyStr Re NLPProcessor MonadM Spec Spec2.

Variable clock : nat -> datetime.

(** The slots a request of its type must carry. *)
Lemma missing_for_nil_slots (rt : ResourceType) (text : string) :
  missing_for rt text = [] ->
  is_Some (extract_name text) /\ is_Some (extract_location text)
  /\ (rt = VIRTUAL_MACHINE ->
      is_Some (returned_vm_parameters text !! "vm_type")
      /\ is_Some (returned_vm_parameters text !! "admin_username"))
  /\ (rt = WEB_APP -> is_Some (extract_webapp_parameters text !! "runtime")).
Proof.
  unfold missing_for, type_missing.
  destruct (extract_name text), (extract_location text); cbn [ask_if_missing app];
    try discriminate.
  intros H. split; [eauto|]. split; [eauto|]. split; intros ->.
  - destruct (returned_vm_parameters text !! "vm_type"),
      (returned_vm_parameters text !! "admin_username"); try discriminate. eauto.
  - destruct (extract_webapp_parameters text !! "runtime"); try discriminate. eauto.
Qed.

(** X10: [parse_request] never touches the context store or a
    collaborator.  It raises in exactly one case: the text is detected as a
    virtual machine and holds an amount of memory of more than 4300 digits,
    which [int()] refuses with a [ValueError].  Otherwise it returns either
    a request and an empty missing list, or no request and a non-empty
    missing list.  A returned request carries the detected type, the
    extracted name, an extracted location, the caller's user id and the
    extracted tags, no resource group and no request id; a VM request
    carries a VM type and an admin username, a web-app request a runtime. *)
Theorem parse_request_request_or_questions (text user : string) (w : World) :
  exists result w',
    parse_request clock text user w = (result, w')
    /\ conversation_contexts w' = conversation_contexts w
    /\ provision_calls w' = provision_calls w
    /\ list_calls w' = list_calls w
    /\ ((exists e, result = Raise e)
        <-> extract_resource_type text = Some VIRTUAL_MACHINE
            /\ ram_amount_too_long text = true)
    /\ match result with
       | Raise e =>
           exists digits,
             search_group1 ram_pattern (lower text) = Some digits
             /\ int_max_str_digits < String.length digits
             /\ e = ValueError (int_limit_message digits)
       | Ok (Some r, missing) =>
           missing = []
           /\ extract_resource_type text = Some (resource_type r)
           /\ extract_name text = Some (name r)
           /\ location r = extract_location text /\ is_Some (location r)
           /\ user_id r = user
           /\ tags r = Some (extract_tags text)
           /\ resource_group r = None /\ request_id r = None
           /\ (resource_type r = VIRTUAL_MACHINE ->
               is_Some (parameters r !! "vm_type")
               /\ is_Some (parameters r !! "admin_username"))
           /\ (resource_type r = WEB_APP -> is_Some (parameters r !! "runtime"))
       | Ok (None, missing) => missing <> []
       end.
Proof.
  destruct (extract_resource_type text) as [rt|] eqn:Hrt.
  - destruct (decide (rt = VIRTUAL_MACHINE /\ ram_amount_too_long text = true))
      as [[-> Hram]|Hno].
    + destruct (parse_request_vm_raises clock text user w Hrt Hram)
        as (digits & Hd & Hlen & Hraise).
      rewrite Hraise. eexists _, _. split; [reflexivity|].
      cbn [conversation_contexts provision_calls list_calls logged].
      split_and!; try done; [|eauto].
      split; [done | eauto].
    + assert (Hram : rt = VIRTUAL_MACHINE -> ram_amount_too_long text = false).
      { intros ->. destruct (ram_amount_too_long text); [|done].
        by destruct Hno. }
      assert (Hnot : ~ (Some rt = Some VIRTUAL_MACHINE
                        /\ ram_amount_too_long text = true)).
      { intros [[= ->] H]. by apply Hno. }
      rewrite (parse_request_detected clock _ _ rt) by done. cbv zeta.
      destruct (missing_for rt text) as [|q qs] eqn:Hm.
      * destruct (missing_for_nil_slots _ _ Hm) as ([n Hn] & Hloc & Hvm & Hweb).
        rewrite Hn. eexists _, _. split; [reflexivity|].
        cbn [conversation_contexts provision_calls list_calls ticked logged
             resource_type name location user_id tags resource_group request_id
             parameters].
        split_and!; try done.
        -- split; [by intros [e [=]] | done].
        -- intros ->. rewrite (right_id_L ∅ (∪)). by apply Hvm.
        -- intros ->. rewrite (right_id_L ∅ (∪)). by apply Hweb.
      * eexists _, _. split; [reflexivity|]. split_and!; try done.
        split; [by intros [e [=]] | done].
  - exists (Ok (None, [q_type])), (logged [ExtractResourceType] w).
    split; [|split_and!; try done].
    + unfold parse_request. rewrite Hrt. reflexivity.
    + split; [by intros [e [=]] | by intros [[=] _]].
Qed.

End ParseRequestFacts.

(** ** More on the agent *)

Section AgentMore.
Import PyStr NLPProcessor MonadM Spec Spec2 Spec3.

Variable config : Config.
Variable clock : nat -> datetime.
Variable backend_provision : nat -> ResourceRequest -> ProvisioningResponse.
Variable backend_list : nat -> list Resource.

Lemma one_of_spec (x : string) (l : list string) : one_of x l = true <-> x ∈ l.
Proof.
  unfold one_of. rewrite existsb_exists. split.
  - intros (y & Hin & Heq). apply String.eqb_eq in Heq as ->. by apply list_elem_of_In.
  - intros Hin. exists x. split; [by apply list_elem_of_In | apply String.eqb_refl].
Qed.

(** X11: when [allowed_users] is empty every user may provision; otherwise
    a user may provision only if listed in [allowed_users] and in
    [admin_users] as well. *)
Theorem permission_needs_admin_when_restricted (user_id : string) :
  _check_user_permissions config user_id = true
  <-> allowed_users config = []
      \/ (user_id ∈ allowed_users config /\ user_id ∈ admin_users config).
Proof.
  unfold _check_user_permissions.
  destruct (allowed_users config) as [|a l] eqn:Ha.
  - rewrite bool_decide_eq_true_2 by done. cbn [negb andb].
    destruct (one_of user_id (admin_users config)); by intuition.
  - rewrite bool_decide_eq_false_2 by done. cbn [negb andb].
    destruct (one_of user_id (a :: l)) eqn:E1; cbn [negb].
    + apply one_of_spec in E1.
      destruct (one_of user_id (admin_users config)) eqn:E2.
      * apply one_of_spec in E2. by intuition.
      * rewrite bool_decide_eq_false_2 by (cbn; lia).
        split; [done|]. intros [|[_ H]]; [done|].
        apply one_of_spec in H. congruence.
    + split; [done|]. intros [|[H _]]; [done|].
      apply one_of_spec in H. congruence.
Qed.

(** X12: a user of [allowed_users] who is not in [admin_users] is turned
    away by the dispatch of [process_message]: the reply is the permission
    message and nothing is read or changed, no context is created. *)
Theorem allowed_user_without_admin_is_denied (user_id conversation_id message : string)
    (w : World) :
  user_id ∈ allowed_users config ->
  user_id ∉ admin_users config ->
  dispatch_message config clock backend_list user_id conversation_id message w
    = (Ok (text_message denied_text), w).
Proof.
  intros Hallowed Hadmin. unfold dispatch_message.
  assert (Hp : _check_user_permissions config user_id = false).
  { unfold _check_user_permissions.
    assert (E1 : one_of user_id (allowed_users config) = true)
      by (by apply one_of_spec).
    assert (E2 : one_of user_id (admin_users config) = false).
    { destruct (one_of user_id (admin_users config)) eqn:E; [|done].
      by apply one_of_spec in E. }
    rewrite E1, E2, andb_false_r. apply bool_decide_eq_false_2.
    destruct (allowed_users config); [by apply elem_of_nil in Hallowed | done]. }
  by rewrite Hp.
Qed.

Lemma colon_free_cons (c : ascii) (s : string) :
  str_in ":" (String c s) = false -> c <> ":"%char /\ str_in ":" s = false.
Proof.
  cbn [str_in starts_with]. rewrite andb_true_r. intros H.
  apply orb_false_iff in H as [H1 H2]. split; [|done].
  intros ->. by rewrite Ascii.eqb_refl in H1.
Qed.

(** X13: two (user, conversation) pairs whose user ids hold no ':' have the
    same context key only if they are the same pair. *)
Theorem context_key_injective_without_colon (u1 c1 u2 c2 : string) :
  str_in ":" u1 = false ->
  str_in ":" u2 = false ->
  context_key u1 c1 = context_key u2 c2 ->
  u1 = u2 /\ c1 = c2.
Proof.
  unfold context_key. revert u2.
  induction u1 as [|x u1 IH]; intros [|y u2] H1 H2 H.
  - change (String ":" c1 = String ":" c2) in H. by injection H as ->.
  - change (String ":" c1 = String y (u2 +:+ ":" +:+ c2)) in H. injection H as <- _.
    by destruct (colon_free_cons _ _ H2).
  - change (String x (u1 +:+ ":" +:+ c1) = String ":" c2) in H. injection H as -> _.
    by destruct (colon_free_cons _ _ H1).
  - change (String x (u1 +:+ ":" +:+ c1) = String y (u2 +:+ ":" +:+ c2)) in H.
    injection H as -> H.
    destruct (colon_free_cons _ _ H1) as [_ H1'].
    destruct (colon_free_cons _ _ H2) as [_ H2'].
    destruct (IH _ H1' H2' H) as [-> ->]. done.
Qed.

(** With a ':' in the user id two different pairs can share a context. *)
Lemma context_key_collision : context_key "a:b" "c" = context_key "a" "b:c".
Proof. reflexivity. Qed.

Lemma alter_as_insert {A} (f : A -> A) (k : string) (m : gmap string A) (x : A) :
  m !! k = Some x -> alter f k m = <[k := f x]> m.
Proof.
  intros H. apply map_eq. intros j. destruct (decide (k = j)) as [->|Hne].
  - by rewrite lookup_alter_eq, lookup_insert_eq, H.
  - by rewrite lookup_alter_ne, lookup_insert_ne.
Qed.

Lemma get_context_run (user_id conversation_id : string) (w : World) :
  _get_conversation_context clock user_id conversation_id w
    = (Ok (context_key user_id conversation_id),
       with_contexts
         (<[context_key user_id conversation_id :=
              refreshed_context clock user_id conversation_id w]>
            (conversation_contexts w))
         (ticked (context_clock_reads user_id conversation_id w) w)).
Proof.
  unfold refreshed_context, context_clock_reads.
  destruct (conversation_contexts w !! context_key user_id conversation_id)
    as [c|] eqn:E.
  - rewrite (get_context_existing _ _ _ _ _ E). by rewrite (alter_as_insert _ _ _ c).
  - rewrite (get_context_fresh _ _ _ _ E).
    rewrite (alter_as_insert _ _ _ _ (lookup_insert_eq _ _ _)).
    by rewrite insert_insert_eq.
Qed.

(** X14: [_get_conversation_context] is a get-or-create: it returns the key
    of the pair, leaves every other entry of the store alone, keeps the
    request, questions, answers and creation time of a stored context and
    only renews its [last_activity]; for a new pair it stores an idle
    context with the two ids.  It calls no collaborator. *)
Theorem get_conversation_context_gets_or_creates (user_id conv_id : string)
    (w : World) :
  exists c w',
    _get_conversation_context clock user_id conv_id w
      = (Ok (context_key user_id conv_id), w')
    /\ conversation_contexts w'
         = <[context_key user_id conv_id := c]> (conversation_contexts w)
    /\ provision_calls w' = provision_calls w /\ list_calls w' = list_calls w
    /\ match conversation_contexts w !! context_key user_id conv_id with
       | Some c0 =>
           dialogue_fields c = dialogue_fields c0
           /\ ctx_user_id c = ctx_user_id c0
           /\ conversation_id c = conversation_id c0
           /\ created_at c = created_at c0
           /\ last_activity c = clock (clock_reads w)
       | None =>
           idle c /\ ctx_user_id c = user_id
           /\ conversation_id c = conv_id
           /\ last_activity c = clock (2 + clock_reads w)
       end.
Proof.
  eexists _, _. split; [apply get_context_run|].
  split; [reflexivity|]. split; [reflexivity|]. split; [reflexivity|].
  unfold refreshed_context.
  destruct (conversation_contexts w !! context_key user_id conv_id); by split_and!.
Qed.

(** X15: for a non-negative [max_age_hours] the clean-up returns exactly
    when [max_age_hours] is at most the current hour of the day; it then
    keeps a context, unchanged, exactly when its [last_activity] is not
    before the cut-off, touches nothing else, and the cut-off is
    [max_age_hours] hours before the first clock reading when both readings
    fall in the same hour.  Otherwise it raises and the store is as before. *)
Theorem cleanup_works_only_within_the_day (max_age_hours : Z) (w : World) :
  (0 <= max_age_hours)%Z ->
  let now_hour := Datetime.hour (clock (S (clock_reads w))) in
  ((max_age_hours <= now_hour)%Z ->
   exists w',
     _cleanup_old_contexts clock max_age_hours w = (Ok tt, w')
     /\ provision_calls w' = provision_calls w /\ list_calls w' = list_calls w
     /\ (forall key c,
           conversation_contexts w' !! key = Some c
           <-> conversation_contexts w !! key = Some c
               /\ (cleanup_cutoff clock max_age_hours w <= last_activity c)%Z)
     /\ (Datetime.hour (clock (clock_reads w)) = now_hour ->
         cleanup_cutoff clock max_age_hours w
           = Datetime.hours_before max_age_hours (clock (clock_reads w))))
  /\ ((now_hour < max_age_hours)%Z ->
      _cleanup_old_contexts clock max_age_hours w
        = (Raise (ValueError "hour must be in 0..23"), ticked 2 w)).
Proof.
  intros Hage now_hour.
  pose proof (hour_range (clock (S (clock_reads w)))) as Hh. fold now_hour in Hh.
  destruct w as [cs pc lc nc cr]. cbn [clock_reads] in *.
  unfold _cleanup_old_contexts.
  cbv [mbind M_bind bind utcnow lift get_contexts set_contexts].
  cbn [clock_reads conversation_contexts provision_calls list_calls nlp_calls].
  fold now_hour.
  unfold replace_hour. split.
  - intros Hle.
    replace ((0 <=? now_hour - max_age_hours)%Z && (now_hour - max_age_hours <=? 23)%Z)
      with true by (symmetry; apply andb_true_iff; split; apply Z.leb_le; lia).
    eexists. split; [reflexivity|].
    cbn [provision_calls list_calls conversation_contexts].
    split; [reflexivity|]. split; [reflexivity|]. split.
    + intros key c. rewrite map_lookup_filter_Some. cbn [snd].
      unfold cleanup_cutoff. cbn [clock_reads]. cbv zeta. fold now_hour.
      split; intros [H1 H2]; (split; [done|lia]).
    + intros Heq. unfold cleanup_cutoff, Datetime.hours_before. cbn [clock_reads].
      cbv zeta. fold now_hour. rewrite Heq. lia.
  - intros Hlt.
    replace ((0 <=? now_hour - max_age_hours)%Z) with false
      by (symmetry; apply Z.leb_gt; lia).
    reflexivity.
Qed.

Lemma handle_list_run (user_id : string) (w : World) :
  exists reply,
    _handle_list_resources backend_list user_id w = (Ok reply, after_listing w)
    /\ (backend_list (list_calls w) = [] ->
        reply = text_message "No resources found in the default resource group.").
Proof.
  unfold _handle_list_resources, try_except, list_resources.
  cbv [mbind M_bind bind mret M_ret pure].
  destruct (backend_list (list_calls w)) as [|r rs]; eexists; (split; [reflexivity|]);
    [done | discriminate].
Qed.

Lemma confirm_without_request_run (user_id conv_id : string) (confirm : bool)
    (w : World) :
  (forall c, conversation_contexts w !! context_key user_id conv_id = Some c ->
             current_request c = None) ->
  confirm_and_provision clock backend_provision user_id conv_id confirm w
    = (Ok (text_message nothing_to_confirm_text),
       with_contexts
         (<[context_key user_id conv_id := refreshed_context clock user_id conv_id w]>
            (conversation_contexts w))
         (ticked (context_clock_reads user_id conv_id w) w)).
Proof.
  intros Hnone. unfold confirm_and_provision. cbv [mbind M_bind bind].
  rewrite get_context_run.
  rewrite (read_context_run _ _ (refreshed_context clock user_id conv_id w))
    by (cbn; apply lookup_insert_eq).
  assert (Hreq : current_request (refreshed_context clock user_id conv_id w) = None).
  { unfold refreshed_context.
    destruct (conversation_contexts w !! context_key user_id conv_id) as [c|] eqn:E;
      [cbn; by apply Hnone | done]. }
  by rewrite Hreq.
Qed.

(** X16: with no stored request for the pair (no context yet, or a context
    without request) [confirm_and_provision] answers "No pending request to
    confirm" for either value of [confirm]; it does not call the
    provisioning collaborator and leaves the pending questions and answers
    of a stored context as they are. *)
Theorem confirm_without_request_does_nothing (user_id conv_id : string)
    (confirm : bool) (w : World) :
  (forall c, conversation_contexts w !! context_key user_id conv_id = Some c ->
             current_request c = None) ->
  exists w' c',
    confirm_and_provision clock backend_provision user_id conv_id confirm w
      = (Ok (text_message nothing_to_confirm_text), w')
    /\ provision_calls w' = provision_calls w
    /\ conversation_contexts w' !! context_key user_id conv_id = Some c'
    /\ match conversation_contexts w !! context_key user_id conv_id with
       | Some c => dialogue_fields c' = dialogue_fields c
       | None => idle c'
       end.
Proof.
  intros Hnone. rewrite (confirm_without_request_run _ _ _ _ Hnone).
  eexists _, _. split; [reflexivity|]. cbn [provision_calls with_contexts ticked
    conversation_contexts].
  split; [reflexivity|]. split; [apply lookup_insert_eq|].
  unfold refreshed_context.
  destruct (conversation_contexts w !! context_key user_id conv_id); by repeat split.
Qed.

(** X17: for a user who may provision, "cancel", "stop" or "abort" (in any
    case) makes the dispatch of [process_message] clear the request, the
    pending questions and the answers of the pair's context; the reply is
    the cancellation text, other contexts are untouched and no collaborator
    is called. *)
Theorem cancel_word_resets_context (user_id conv_id message : string) (w : World) :
  _check_user_permissions config user_id = true ->
  lower message ∈ ["cancel"; "stop"; "abort"] ->
  exists w' c,
    dispatch_message config clock backend_list user_id conv_id message w
      = (Ok (text_message "Operation cancelled. How can I help you?"), w')
    /\ conversation_contexts w' !! context_key user_id conv_id = Some c /\ idle c
    /\ (forall key, key <> context_key user_id conv_id ->
          conversation_contexts w' !! key = conversation_contexts w !! key)
    /\ provision_calls w' = provision_calls w /\ list_calls w' = list_calls w.
Proof.
  intros Hp Hc. apply one_of_spec in Hc.
  unfold dispatch_message. rewrite Hp. cbn [negb]. cbv [mbind M_bind bind].
  rewrite get_context_run, Hc, write_context_run. cbv [mret M_ret pure].
  eexists _, _. split; [reflexivity|].
  cbn [provision_calls list_calls with_contexts ticked conversation_contexts].
  split; [by rewrite lookup_alter_eq, lookup_insert_eq|].
  split; [apply idle_clear_fields|]. split; [|done].
  intros key Hne. by rewrite lookup_alter_ne, lookup_insert_ne.
Qed.

(** X18: for a user who may provision, a message that holds "list", "show",
    "what" or "resources" and is no control or help word makes the dispatch
    of [process_message] call [list_resources] exactly once, whatever the
    context holds: request, pending questions and answers of a stored
    context are kept, nothing is recorded as an answer, other contexts are
    untouched and nothing is provisioned.  An empty listing gives the "No
    resources found" reply. *)
Theorem listing_word_preempts_collection (user_id conv_id message : string)
    (w : World) :
  _check_user_permissions config user_id = true ->
  lower message ∉ ["cancel"; "stop"; "abort"] ->
  lower message ∉ ["help"; "what can you do"; "?"] ->
  any_in ["list"; "show"; "what"; "resources"] (lower message) = true ->
  exists reply w' c,
    dispatch_message config clock backend_list user_id conv_id message w = (Ok reply, w')
    /\ list_calls w' = S (list_calls w) /\ provision_calls w' = provision_calls w
    /\ conversation_contexts w' !! context_key user_id conv_id = Some c
    /\ (forall c0, conversation_contexts w !! context_key user_id conv_id = Some c0 ->
                   dialogue_fields c = dialogue_fields c0)
    /\ (forall key, key <> context_key user_id conv_id ->
          conversation_contexts w' !! key = conversation_contexts w !! key)
    /\ (backend_list (list_calls w) = [] ->
        reply = text_message "No resources found in the default resource group.").
Proof.
  intros Hp Hc Hh Hl.
  assert (Hc' : one_of (lower message) ["cancel"; "stop"; "abort"] = false)
    by (apply not_true_is_false; by rewrite one_of_spec).
  assert (Hh' : one_of (lower message) ["help"; "what can you do"; "?"] = false)
    by (apply not_true_is_false; by rewrite one_of_spec).
  rewrite (dispatch_listing_words _ _ _ _ _ _ _ Hp Hc' Hh' Hl).
  cbv [mbind M_bind bind]. rewrite get_context_run.
  match goal with
  | |- context [_handle_list_resources _ _ ?w1] =>
      destruct (handle_list_run user_id w1) as (reply & Hrun & Hempty)
  end.
  rewrite Hrun. exists reply. eexists _, _. split; [reflexivity|].
  cbn [provision_calls list_calls with_contexts ticked conversation_contexts
       after_listing].
  split; [reflexivity|]. split; [reflexivity|].
  split; [apply lookup_insert_eq|]. split; [|split].
  - intros c0 H0. unfold refreshed_context. by rewrite H0.
  - intros key Hne. by rewrite lookup_insert_ne.
  - exact Hempty.
Qed.

Lemma handle_complete_run (key : string) (request : ResourceRequest) (w : World) :
  _handle_complete_request key request w
    = (Ok (mkBotMessage (generate_response request "confirm") (Some yes_no_actions)),
       with_contexts (alter (set_current_request (Some request)) key
                            (conversation_contexts w)) w).
Proof. reflexivity. Qed.


Lemma question_is_not_a_slot_key (q : string) :
  q ∈ extractor_questions -> q <> "name" /\ q <> "location".
Proof.
  unfold extractor_questions. intros H.
  repeat (apply elem_of_cons in H as [->|H]; [by split|]).
  by apply elem_of_nil in H.
Qed.

Lemma last_answer_names_default (q message : string) (context : ConversationContext) :
  q ∈ extractor_questions ->
  (forall k, is_Some (collected_parameters context !! k) -> k ∈ extractor_questions) ->
  let answered := set_pending_questions []
         (set_collected_parameters
            (<[q := message]> (collected_parameters context)) context) in
  synthesized_name answered = "unnamed-resource"
  /\ synthesized_location config answered = default_location config.
Proof.
  intros Hin Hkeys answered.
  destruct (question_is_not_a_slot_key q Hin) as [Hn Hl].
  unfold synthesized_name, synthesized_location. subst answered.
  cbn [collected_parameters set_pending_questions set_collected_parameters].
  rewrite !lookup_insert_ne by done.
  destruct (collected_parameters context !! "name") as [v|] eqn:En.
  { destruct (question_is_not_a_slot_key "name" (Hkeys _ (mk_is_Some _ _ En))) as [E _].
    by destruct E. }
  destruct (collected_parameters context !! "location") as [v|] eqn:El.
  { destruct (question_is_not_a_slot_key "location" (Hkeys _ (mk_is_Some _ _ El)))
      as [_ E]. by destruct E. }
  done.
Qed.

(** X20: while questions are pending, [_handle_parameter_collection] takes
    the message as the answer to the first one whatever it says: the
    answer is stored under the text of that question and the question is
    removed.  If another question is left, the reply is that question; the
    current request is not touched, nothing is extracted or validated, and
    no clock is read and no collaborator called. *)
Theorem answer_is_stored_and_next_question_asked (key q next message : string)
    (rest : list string) (w : World) (context : ConversationContext) :
  conversation_contexts w !! key = Some context ->
  pending_questions context = q :: next :: rest ->
  exists c',
    _handle_parameter_collection config clock key message w
      = (Ok (text_message next),
         with_contexts (<[key := c']> (conversation_contexts w)) w)
    /\ pending_questions c' = next :: rest
    /\ collected_parameters c' = <[q := message]> (collected_parameters context)
    /\ current_request c' = current_request context
    /\ last_activity c' = last_activity context.
Proof.
  intros Hctx Hq.
  unfold _handle_parameter_collection. cbv [mbind M_bind bind].
  rewrite (read_context_run _ _ _ Hctx), Hq, write_context_run.
  cbv [mret M_ret pure]. rewrite (alter_as_insert _ _ _ _ Hctx).
  eexists. split; [reflexivity|]. by split_and!.
Qed.

(** X21: when the last pending question is answered while the context
    holds a request (from an earlier, unconfirmed message), the synthesized
    request replaces it: it keeps only the resource type of the old one;
    its name is "unnamed-resource" and its location the configured default
    (the answers being stored under question texts), its parameters are
    empty and it has no tags.  The reply is the confirmation prompt. *)
Theorem last_answer_replaces_stored_request (key q message : string) (w : World)
    (context : ConversationContext) (old : ResourceRequest) :
  conversation_contexts w !! key = Some context ->
  pending_questions context = [q] ->
  current_request context = Some old ->
  q ∈ extractor_questions ->
  (forall k, is_Some (collected_parameters context !! k) -> k ∈ extractor_questions) ->
  exists new w' c',
    _handle_parameter_collection config clock key message w
      = (Ok (mkBotMessage (generate_response new "confirm") (Some yes_no_actions)), w')
    /\ conversation_contexts w' !! key = Some c'
    /\ current_request c' = Some new /\ pending_questions c' = []
    /\ collected_parameters c' = <[q := message]> (collected_parameters context)
    /\ resource_type new = resource_type old
    /\ name new = "unnamed-resource"
    /\ location new = Some (default_location config)
    /\ parameters new = ∅ /\ tags new = None
    /\ user_id new = ctx_user_id context
    /\ provision_calls w' = provision_calls w.
Proof.
  intros Hctx Hq Hreq Hin Hkeys.
  pose proof (last_answer_names_default q message context Hin Hkeys) as [Hn Hl].
  unfold _handle_parameter_collection. cbv [mbind M_bind bind].
  rewrite (read_context_run _ _ _ Hctx), Hq, write_context_run. unfold try_except.
  set (answered := set_pending_questions []
         (set_collected_parameters
            (<[q := message]> (collected_parameters context)) context)) in *.
  rewrite (read_context_run _ _ answered) by (cbn; by rewrite lookup_alter_eq, Hctx).
  assert (Hrt : synthesized_resource_type answered = Some (resource_type old))
    by (unfold synthesized_resource_type; cbn; by rewrite Hreq).
  unfold new_ResourceRequest. cbv [mbind M_bind bind utcnow mret M_ret pure].
  rewrite Hrt, Hn, Hl. rewrite handle_complete_run.
  eexists _, _, _. split; [reflexivity|].
  cbn [provision_calls with_contexts conversation_contexts].
  split; [by rewrite !lookup_alter_eq, Hctx|]. by split_and!.
Qed.

(** One message: the contexts stay idle and no collaborator is called. *)
Lemma bot_step_keeps_idle (user conv_id text : string) (w : World) :
  all_idle w ->
  exists reply w',
    on_message_activity config clock backend_provision backend_list user conv_id text w
      = (Ok reply, w')
    /\ all_idle w'
    /\ provision_calls w' = provision_calls w /\ list_calls w' = list_calls w
    /\ nlp_calls w' = nlp_calls w
    /\ (reply = text_message error_text \/ reply = text_message nothing_to_confirm_text).
Proof.
  intros Hidle. unfold on_message_activity, try_except. cbv [mbind M_bind bind].
  rewrite process_message_always_errors.
  destruct (one_of (lower text) ["yes"; "no"]).
  - rewrite confirm_without_request_run.
    + eexists _, _. split; [reflexivity|].
      cbn [provision_calls list_calls nlp_calls with_contexts ticked].
      split; [|by split_and!; [..|right]].
      intros key c. cbn [conversation_contexts with_contexts ticked].
      destruct (decide (key = context_key user conv_id)) as [->|Hne].
      * rewrite lookup_insert_eq. intros [= <-]. unfold refreshed_context.
        cbn [conversation_contexts ticked].
        destruct (conversation_contexts w !! context_key user conv_id) as [c0|] eqn:E;
          [|by repeat split].
        destruct (Hidle _ _ E) as (H1 & H2 & H3). by repeat split.
      * rewrite lookup_insert_ne by done. apply Hidle.
    + intros c Hc. by destruct (Hidle _ _ Hc).
  - eexists _, _. split; [reflexivity|]. split; [exact Hidle|]. by split_and!; [..|left].
Qed.

(** X22: a bot that starts with an empty context store never provisions,
    never lists and never runs the extractor, whatever messages arrive: each
    message is answered with the generic error text or, for "yes" and "no",
    with "No pending request to confirm", and every context it holds stays
    idle. *)
Theorem fresh_bot_never_reaches_a_collaborator
    (messages : list (string * string * string)) :
  exists replies w',
    handle_messages config clock backend_provision backend_list messages
      (mkWorld ∅ [] 0 [] 0) = (Ok replies, w')
    /\ provision_calls w' = [] /\ list_calls w' = 0 /\ nlp_calls w' = []
    /\ all_idle w'
    /\ length replies = length messages
    /\ Forall (fun reply => reply = text_message error_text
                            \/ reply = text_message nothing_to_confirm_text) replies.
Proof.
  assert (Hgen : forall w, all_idle w ->
            exists replies w',
              handle_messages config clock backend_provision backend_list messages w
                = (Ok replies, w')
              /\ provision_calls w' = provision_calls w
              /\ list_calls w' = list_calls w /\ nlp_calls w' = nlp_calls w
              /\ all_idle w' /\ length replies = length messages
              /\ Forall (fun reply => reply = text_message error_text
                                      \/ reply = text_message nothing_to_confirm_text)
                        replies).
  { induction messages as [|[[user conv] text] rest IH]; intros w Hidle.
    - exists [], w. by split_and!.
    - destruct (bot_step_keeps_idle user conv text w Hidle)
        as (reply & w1 & Hrun & Hidle1 & Hp1 & Hl1 & Hn1 & Hreply).
      destruct (IH w1 Hidle1) as (replies & w2 & Hrest & Hp2 & Hl2 & Hn2 & Hidle2 & Hlen & Hall).
      exists (reply :: replies), w2. cbn [handle_messages].
      cbv [mbind M_bind bind mret M_ret pure]. rewrite Hrun, Hrest.
      split; [reflexivity|]. split_and!; try congruence; [done | cbn; lia | by constructor]. }
  apply Hgen. intros key c H. cbn [conversation_contexts] in H.
  by rewrite lookup_empty in H.
Qed.

End AgentMore.

(** ** Properties of the provisioning collaborator *)

Section ClientFacts.
Import PyStr NLPProcessor MonadM AzureClient Spec Spec2 Spec3 Spec4.

Variable default_rg : string.
Variable default_loc : string.
Variable format_resource_type : ResourceType -> string.
Variable sdk : list SdkCall -> SdkCall -> string + string.
Variable request_uuid : string.
Variable client_clock : nat -> datetime.

Local Abbreviation provision :=
  (provision_resource default_rg default_loc format_resource_type sdk request_uuid
                      client_clock).

Local Ltac unfold_client :=
  cbv [provision_resource provision_virtual_machine provision_storage_account
       provision_web_app az_try ensure_resource_group sdk_call
       mbind mret Az_bind Az_ret az_bind az_ret negb].

Local Ltac use_sdk_results :=
  repeat match goal with
         | H : sdk ?h ?c = _ |- context [sdk ?h ?c] => rewrite H; cbn [all_returned]
         end.

Local Ltac exists_response_without_call :=
  solve [ eexists _, _, [];
          split; [by rewrite app_nil_r|];
          cbn [resource_name resp_resource_type resp_location resp_resource_group
               status resource_id error_details response_completed_at fst snd
               failed_response supported length all_returned];
          split_and!; try done; try (cbn; lia);
          try (split; [done | by intros []]) ].

Local Ltac step_sdk :=
  match goal with
  | |- context [sdk ?h ?c] =>
      let E := fresh "E" in destruct (sdk h c) eqn:E
  end.

(** X23: [provision_resource] always answers, echoing the request's name
    and type, with the request's location and resource group or, where
    these are missing or empty, the defaults.  It makes at most four SDK
    calls, none for a type other than VM, storage account and web app; the
    status is Completed, with a resource id, exactly when the type is one
    of these three and every SDK call made has returned, and Failed, without
    resource id or completion time, otherwise. *)
Theorem provision_resource_outcome (request : ResourceRequest) (h : list SdkCall) :
  exists response times calls,
    provision request h = ((response, times), (h ++ calls)%list)
    /\ resource_name response = name request
    /\ resp_resource_type response = resource_type request
    /\ resp_location response = or_default (location request) default_loc
    /\ resp_resource_group response = or_default (resource_group request) default_rg
    /\ length calls <= 4
    /\ (supported (resource_type request) = false -> calls = [])
    /\ (status response = COMPLETED
        <-> supported (resource_type request) = true
            /\ all_returned sdk h calls = true)
    /\ (status response = COMPLETED ->
        is_Some (resource_id response) /\ error_details response = None
        /\ is_Some (response_completed_at times))
    /\ (status response <> COMPLETED ->
        status response = FAILED /\ resource_id response = None
        /\ response_completed_at times = None).
Proof.
  destruct (resource_type request) eqn:Hrt; unfold_client; rewrite ?Hrt;
    try (exists_response_without_call);
    repeat first [step_sdk | destruct (is_windows _)];
    rewrite <- ?app_assoc; cbn [app];
    (eexists _, _, _; split; [reflexivity|]);
    cbn [resource_name resp_resource_type resp_location resp_resource_group
         status resource_id error_details response_completed_at fst snd
         failed_response completed_response supported length];
    cbn [all_returned]; use_sdk_results;
    split_and!; try done; try (cbn; lia);
    try (split; [done | by intros []]); eauto.
Qed.

(** X24: when the creation of the resource group fails, provisioning of a
    VM, storage account or web app stops there: this is the only SDK call,
    and the response is Failed with the message "Failed to create resource
    group" and no error details. *)
Theorem resource_group_failure_stops_provisioning (request : ResourceRequest)
    (h : list SdkCall) (e : string) :
  supported (resource_type request) = true ->
  sdk h (ResourceGroupsCreateOrUpdate
           (or_default (resource_group request) default_rg)
           (or_default (location request) default_loc)) = inl e ->
  exists response times,
    provision request h
      = ((response, times),
         (h ++ [ResourceGroupsCreateOrUpdate
                  (or_default (resource_group request) default_rg)
                  (or_default (location request) default_loc)])%list)
    /\ status response = FAILED
    /\ message response = "Failed to create resource group"
    /\ error_details response = None.
Proof.
  intros Hs He.
  destruct (resource_type request) eqn:Hrt; try discriminate;
    unfold_client; rewrite ?Hrt, He; by eexists _, _.
Qed.

(** X25: what the client sends for a web app depends on the request's
    parameters only through "plan_sku", "plan_name" and "app_settings": the
    runtime that the extractor asks for never reaches the SDK, and the plan
    tier sent is always "Basic". *)
Theorem web_app_ignores_runtime (request : ResourceRequest)
    (ps1 ps2 : gmap string ParamValue) (h : list SdkCall) :
  (forall key, key ∈ ["plan_sku"; "plan_name"; "app_settings"] ->
               ps1 !! key = ps2 !! key) ->
  provision_web_app default_rg default_loc sdk request_uuid client_clock
                    (with_parameters ps1 request) h
    = provision_web_app default_rg default_loc sdk request_uuid client_clock
                        (with_parameters ps2 request) h
  /\ forall resource_group plan_name params,
       AppServicePlansCreate resource_group plan_name params
         ∈ snd (provision_web_app default_rg default_loc sdk request_uuid client_clock
                                  (with_parameters ps1 request) [])
       -> plan_sku_tier params = "Basic".
Proof.
  intros Hagree.
  assert (H1 : ps1 !! "plan_sku" = ps2 !! "plan_sku")
    by (apply Hagree; repeat first [apply list_elem_of_here | apply list_elem_of_further]).
  assert (H2 : ps1 !! "plan_name" = ps2 !! "plan_name")
    by (apply Hagree; repeat first [apply list_elem_of_here | apply list_elem_of_further]).
  assert (H3 : ps1 !! "app_settings" = ps2 !! "app_settings")
    by (apply Hagree; repeat first [apply list_elem_of_here | apply list_elem_of_further]).
  split.
  - unfold provision_web_app, parameter, failed_response, completed_response.
    cbn [parameters with_parameters name resource_type location resource_group tags].
    by rewrite H1, H2, H3.
  - intros rg pn params. unfold_client. unfold parameter.
    cbn [parameters with_parameters name resource_type location resource_group tags].
    repeat step_sdk; cbn [snd app]; intros Hin;
      repeat (apply elem_of_cons in Hin as [Hin|Hin]; [by inversion Hin|]);
      by apply elem_of_nil in Hin.
Qed.

End ClientFacts.

(** ** The agent with the client as its collaborator *)

Section AgentWithClient.
Import PyStr Re NLPProcessor MonadM Spec Spec2 Spec3 Spec4.

Variable config : Config.
Variable clock : nat -> datetime.
Variable default_rg : string.
Variable format_resource_type : ResourceType -> string.
Variable sdk_of : nat -> list AzureClient.SdkCall -> AzureClient.SdkCall -> string + string.
Variable uuid_of : nat -> string.
Variable clock_of : nat -> nat -> datetime.

Local Ltac unfold_client :=
  cbv [AzureClient.provision_resource AzureClient.provision_virtual_machine
       AzureClient.provision_storage_account AzureClient.provision_web_app
       AzureClient.az_try AzureClient.ensure_resource_group AzureClient.sdk_call
       mbind mret AzureClient.Az_bind AzureClient.Az_ret AzureClient.az_bind
       AzureClient.az_ret negb].

Lemma vm_parameters_have_no_password (text : string) (ps : gmap string ParamValue) :
  extract_vm_parameters text = Ok ps -> ps !! "admin_password" = None.
Proof.
  unfold extract_vm_parameters. generalize (lower text) as t. intros t.
  unfold vm_size_patterns. cbn [fold_left snd].
  destruct (search_group1 ram_pattern t) as [digits|];
    [destruct (int_of_digits digits); [|discriminate]|];
    intros H; apply Ok_inj in H; subst ps;
    destruct (search_group1 username_pattern t);
    repeat match goal with
           | |- context [match List.find ?f ?l with _ => _ end] => destruct (List.find f l)
           end;
    rewrite ?lookup_insert_ne by done;
    repeat case_match; by rewrite ?lookup_insert_ne, ?lookup_empty by done.
Qed.

(** A request that [parse_request] returns for a VM carries the parameters
    that [extract_vm_parameters] returned, an admin username among them. *)
Lemma parsed_vm_request_parameters (text user : string) (w w' : World)
    (request : ResourceRequest) (missing : list string) :
  parse_request clock text user w = (Ok (Some request, missing), w') ->
  resource_type request = VIRTUAL_MACHINE ->
  extract_vm_parameters text = Ok (parameters request)
  /\ is_Some (parameters request !! "admin_username").
Proof.
  intros Hrun Hvm.
  destruct (extract_resource_type text) as [rt|] eqn:Hrt.
  - destruct (decide (rt = VIRTUAL_MACHINE /\ ram_amount_too_long text = true))
      as [[-> Hram]|Hno].
    { destruct (parse_request_vm_raises clock text user w Hrt Hram)
        as (digits & _ & _ & Hraise).
      rewrite Hraise in Hrun. discriminate. }
    assert (Hram : rt = VIRTUAL_MACHINE -> ram_amount_too_long text = false).
    { intros ->. destruct (ram_amount_too_long text); [|done]. by destruct Hno. }
    rewrite (parse_request_detected clock _ _ rt) in Hrun by done. cbv zeta in Hrun.
    destruct (missing_for rt text) as [|q qs] eqn:Hm; [|discriminate].
    destruct (extract_name text) as [n|] eqn:Hn; [|discriminate].
    injection Hrun as <- _ _. cbn [resource_type] in Hvm. subst rt.
    cbn [parameters]. rewrite (right_id_L ∅ (∪)).
    split; [by apply extract_vm_parameters_returns, Hram|].
    unfold missing_for, type_missing in Hm. rewrite Hn in Hm.
    destruct (returned_vm_parameters text !! "admin_username"); [eauto|].
    destruct (extract_location text), (returned_vm_parameters text !! "vm_type");
      cbn [ask_if_missing app] in Hm; discriminate.
  - unfold parse_request in Hrun. rewrite Hrt in Hrun. discriminate.
Qed.

(** X26: every virtual machine requested through the extractor is created
    with the administrator password "Azure123456!": a request returned by
    [parse_request] never carries a password, and the client falls back to
    this literal.  The machine gets the extracted name as computer name and
    the extracted, lower-cased admin username. *)
Theorem chat_vm_gets_the_default_password (text user : string) (w w' : World)
    (request : ResourceRequest) (missing : list string) (n : nat)
    (resource_group vm_name : string) (params : AzureClient.VmParams) :
  parse_request clock text user w = (Ok (Some request, missing), w') ->
  resource_type request = VIRTUAL_MACHINE ->
  AzureClient.VirtualMachinesCreate resource_group vm_name params
    ∈ snd (AzureClient.provision_resource default_rg (default_location config)
             format_resource_type (sdk_of n) (uuid_of n) (clock_of n) request []) ->
  AzureClient.admin_password params = PStr "Azure123456!"
  /\ vm_name = name request /\ AzureClient.computer_name params = name request
  /\ exists ps,
       extract_vm_parameters text = Ok ps
       /\ ps !! "admin_username" = Some (AzureClient.admin_username params).
Proof.
  intros Hrun Hvm.
  destruct (parsed_vm_request_parameters _ _ _ _ _ _ Hrun Hvm) as [Hps [u Hu]].
  pose proof (vm_parameters_have_no_password _ _ Hps) as Hpw.
  unfold_client. rewrite Hvm. unfold AzureClient.parameter.
  rewrite Hpw, Hu. cbn [default].
  repeat first
    [ match goal with
      | |- context [sdk_of n ?h ?c] => destruct (sdk_of n h c)
      end
    | destruct (AzureClient.is_windows _) ];
    cbn [snd app]; intros Hin;
    repeat (apply elem_of_cons in Hin as [Hin|Hin];
            [first [ discriminate
                   | injection Hin as -> -> ->;
                     split_and!; [done..|]; exists (parameters request); by split ]|]);
    by apply elem_of_nil in Hin.
Qed.

(** X27: a stored request of a type other than VM, storage account and web
    app (the extractor detects five such types) can be confirmed, but the
    confirmation always ends in the failure reply "... Resource type ... not
    yet implemented": the client makes no SDK call for it, and the context
    is cleared. *)
Theorem unsupported_request_fails_after_confirmation (user conv_id : string)
    (w : World) (context : ConversationContext) (request : ResourceRequest) :
  conversation_contexts w !! context_key user conv_id = Some context ->
  current_request context = Some request ->
  supported (resource_type request) = false ->
  exists w' c',
    confirm_and_provision clock
      (azure_backend default_rg (default_location config) format_resource_type
                     sdk_of uuid_of clock_of)
      user conv_id true w
      = (Ok (text_message
               ("âŒ Failed to create resource: Resource type "
                  +:+ format_resource_type (resource_type request)
                  +:+ " not yet implemented")), w')
    /\ conversation_contexts w' !! context_key user conv_id = Some c' /\ idle c'
    /\ provision_calls w' = (provision_calls w ++ [request])%list
    /\ snd (AzureClient.provision_resource default_rg (default_location config)
              format_resource_type (sdk_of (length (provision_calls w)))
              (uuid_of (length (provision_calls w)))
              (clock_of (length (provision_calls w))) request []) = [].
Proof.
  intros Hctx Hreq Hs.
  assert (Hresp :
    AzureClient.provision_resource default_rg (default_location config) format_resource_type
      (sdk_of (length (provision_calls w))) (uuid_of (length (provision_calls w)))
      (clock_of (length (provision_calls w))) request []
    = (AzureClient.failed_response (uuid_of (length (provision_calls w)))
         (clock_of (length (provision_calls w))) request
         (AzureClient.or_default (resource_group request) default_rg)
         (AzureClient.or_default (location request) (default_location config))
         ("Resource type " +:+ format_resource_type (resource_type request)
            +:+ " not yet implemented") None, [])).
  { unfold AzureClient.provision_resource. by destruct (resource_type request). }
  unfold confirm_and_provision. cbv [mbind M_bind bind].
  rewrite (get_context_existing _ _ _ _ _ Hctx).
  rewrite (read_context_run _ _ (set_last_activity (clock (clock_reads w)) context))
    by (cbn; by rewrite lookup_alter_eq, Hctx).
  cbn [current_request set_last_activity]. rewrite Hreq. cbn [negb].
  unfold try_except, provision_resource, azure_backend.
  cbn [provision_calls with_contexts ticked]. rewrite Hresp.
  cbn [fst AzureClient.failed_response status]. rewrite write_context_run.
  rewrite bool_decide_eq_false_2 by done. cbv [mret M_ret pure].
  eexists _, _. split; [reflexivity|].
  cbn [provision_calls with_contexts conversation_contexts].
  split; [by rewrite !lookup_alter_eq, Hctx|].
  split; [apply idle_clear_fields|]. by split.
Qed.

End AgentWithClient.

(** ** The further statements at concrete inputs *)

Section MoreWitnesses.
Import PyStr Re NLPProcessor MonadM Spec Spec2 Spec3 Spec4 Examples Examples2.

Local Ltac in_list :=
  repeat first [apply list_elem_of_here | apply list_elem_of_further].

Lemma shadowed_keyword_never_selects_its_type_witness :
  ("container instance", CONTAINER_INSTANCE) ∈ shadowed_keywords
  /\ str_in "container instance" (lower "Run a Container Instance named c1") = true
  /\ extract_resource_type "Run a Container Instance named c1" = Some VIRTUAL_MACHINE.
Proof.
  assert (H1 : ("container instance", CONTAINER_INSTANCE) ∈ shadowed_keywords)
    by (unfold shadowed_keywords; in_list).
  assert (H2 : str_in "container instance" (lower "Run a Container Instance named c1")
               = true) by (vm_compute; reflexivity).
  split; [exact H1|]. split; [exact H2|].
  exact (proj2 (proj2 (shadowed_keyword_never_selects_its_type
                         "Run a Container Instance named c1" "container instance"
                         CONTAINER_INSTANCE H1 H2)) (or_intror eq_refl)).
Defined.

Lemma extracted_name_is_token_witness :
  extract_name "please call it data-1 today" = Some "data-1"
  /\ token_of is_name_char "data-1"
  /\ str_in "data-1" "please call it data-1 today" = true.
Proof.
  assert (H : extract_name "please call it data-1 today" = Some "data-1")
    by (vm_compute; reflexivity).
  split; [exact H|].
  exact (extracted_name_is_token "please call it data-1 today" "data-1" H).
Defined.

Lemma vm_type_is_decided_by_substrings_witness :
  extract_vm_parameters "a Linux VM for the winter sale"
    = Ok (<["vm_type" := PVm WINDOWS]> ∅)
  /\ str_in "win" (lower "a Linux VM for the winter sale") = true.
Proof.
  assert (H : extract_vm_parameters "a Linux VM for the winter sale"
              = Ok (<["vm_type" := PVm WINDOWS]> ∅)) by (vm_compute; reflexivity).
  split; [exact H|].
  apply (proj1 (vm_type_is_decided_by_substrings _ _ H)).
  vm_compute. reflexivity.
Defined.

Lemma ram_amount_overrides_size_code_witness :
  search_group1 ram_pattern (lower "Linux VM, size d2s, 8 GB") = Some "8"
  /\ String.length "8" <= int_max_str_digits
  /\ exists ps,
       extract_vm_parameters "Linux VM, size d2s, 8 GB" = Ok ps
       /\ ps !! "size" = Some (PStr (size_for_ram (decimal_value "8"))).
Proof.
  assert (H : search_group1 ram_pattern (lower "Linux VM, size d2s, 8 GB") = Some "8")
    by (vm_compute; reflexivity).
  assert (Hlen : String.length "8" <= int_max_str_digits)
    by (unfold int_max_str_digits; simpl; lia).
  split; [exact H|]. split; [exact Hlen|].
  exact (proj1 (ram_amount_overrides_size_code "Linux VM, size d2s, 8 GB" "8" H) Hlen).
Defined.

Lemma admin_username_is_lowercase_word_witness :
  extract_vm_parameters "a VM, username: Bob" = Ok (<["admin_username" := PStr "bob"]> ∅)
  /\ (<["admin_username" := PStr "bob"]> ∅ : gmap string ParamValue)
       !! "admin_username" = Some (PStr "bob")
  /\ exists user,
       PStr "bob" = PStr user /\ token_of is_word user
       /\ str_in user (lower "a VM, username: Bob") = true.
Proof.
  assert (H : extract_vm_parameters "a VM, username: Bob"
              = Ok (<["admin_username" := PStr "bob"]> ∅)) by (vm_compute; reflexivity).
  assert (Hu : (<["admin_username" := PStr "bob"]> ∅ : gmap string ParamValue)
                 !! "admin_username" = Some (PStr "bob")) by (vm_compute; reflexivity).
  split; [exact H|]. split; [exact Hu|].
  exact (admin_username_is_lowercase_word "a VM, username: Bob" _ (PStr "bob") H Hu).
Defined.

Lemma webapp_runtime_and_plan_witness :
  str_in "javascript" (lower "Deploy a JavaScript website") = true
  /\ extract_webapp_parameters "Deploy a JavaScript website" !! "runtime"
     = Some (PRuntime NODE_JS).
Proof.
  assert (H : str_in "javascript" (lower "Deploy a JavaScript website") = true)
    by (vm_compute; reflexivity).
  split; [exact H|].
  exact (proj2 (proj2 (proj2 (webapp_runtime_and_plan "Deploy a JavaScript website"))) H).
Defined.

Lemma tags_have_two_possible_keys_witness :
  extract_tags "storage for project: Alpha-1" !! "project" = Some "alpha-1"
  /\ token_of is_name_char "alpha-1".
Proof.
  assert (H : extract_tags "storage for project: Alpha-1" !! "project" = Some "alpha-1")
    by (vm_compute; reflexivity).
  split; [exact H|].
  destruct (tags_have_two_possible_keys "storage for project: Alpha-1" "project"
              "alpha-1" H) as [[E _]|[_ [Htok _]]]; [discriminate | exact Htok].
Defined.

Lemma allowed_user_without_admin_is_denied_witness :
  ("bob" ∈ allowed_users restricted_config)
  /\ ("bob" ∉ admin_users restricted_config)
  /\ dispatch_message restricted_config example_clock no_resources
       "bob" "conv7" "Create a VM" empty_world
     = (Ok (text_message denied_text), empty_world).
Proof.
  assert (H1 : "bob" ∈ allowed_users restricted_config) by (cbn; in_list).
  assert (H2 : "bob" ∉ admin_users restricted_config).
  { cbn. intros H. apply elem_of_cons in H as [H|H]; [discriminate|].
    by apply elem_of_nil in H. }
  split; [exact H1|]. split; [exact H2|].
  exact (allowed_user_without_admin_is_denied restricted_config example_clock
           no_resources "bob" "conv7" "Create a VM" empty_world H1 H2).
Defined.

Lemma context_key_injective_without_colon_witness :
  str_in ":" "alice" = false /\ str_in ":" "alice" = false
  /\ context_key "alice" "19:meeting" = context_key "alice" "19:meeting"
  /\ "alice" = "alice" /\ "19:meeting" = "19:meeting".
Proof.
  assert (H : str_in ":" "alice" = false) by reflexivity.
  split; [exact H|]. split; [exact H|]. split; [reflexivity|].
  exact (context_key_injective_without_colon "alice" "19:meeting" "alice" "19:meeting"
           H H eq_refl).
Defined.

Lemma cleanup_works_only_within_the_day_witness :
  (0 <= 2)%Z
  /\ exists w',
       _cleanup_old_contexts example_clock 2 (world_with "alice:conv1" stale_context)
         = (Ok tt, w')
       /\ conversation_contexts w' !! "alice:conv1" = None.
Proof.
  assert (H : (0 <= 2)%Z) by lia.
  split; [exact H|].
  destruct (proj1 (cleanup_works_only_within_the_day example_clock 2
                     (world_with "alice:conv1" stale_context) H))
    as (w' & Hrun & _ & _ & Hkeep & _).
  { vm_compute. discriminate. }
  exists w'. split; [exact Hrun|].
  destruct (conversation_contexts w' !! "alice:conv1") as [c|] eqn:E; [|reflexivity].
  apply Hkeep in E as [E1 E2].
  vm_compute in E1. injection E1 as <-. vm_compute in E2. by destruct E2.
Defined.

Lemma confirm_without_request_does_nothing_witness :
  (forall c, conversation_contexts (world_with "alice:conv1" collecting_context)
               !! context_key "alice" "conv1" = Some c -> current_request c = None)
  /\ exists w' c',
       confirm_and_provision example_clock created_backend "alice" "conv1" true
         (world_with "alice:conv1" collecting_context)
         = (Ok (text_message nothing_to_confirm_text), w')
       /\ provision_calls w' = []
       /\ conversation_contexts w' !! context_key "alice" "conv1" = Some c'
       /\ dialogue_fields c' = dialogue_fields collecting_context.
Proof.
  assert (H : forall c, conversation_contexts (world_with "alice:conv1" collecting_context)
                          !! context_key "alice" "conv1" = Some c ->
                        current_request c = None).
  { intros c Hc. vm_compute in Hc. injection Hc as <-. reflexivity. }
  split; [exact H|].
  exact (confirm_without_request_does_nothing example_clock created_backend
           "alice" "conv1" true _ H).
Defined.

Lemma cancel_word_resets_context_witness :
  _check_user_permissions open_config "alice" = true
  /\ (lower "Cancel" ∈ ["cancel"; "stop"; "abort"])
  /\ exists w' c,
       dispatch_message open_config example_clock no_resources "alice" "conv1" "Cancel"
         (world_with "alice:conv1" awaiting_context)
         = (Ok (text_message "Operation cancelled. How can I help you?"), w')
       /\ conversation_contexts w' !! context_key "alice" "conv1" = Some c /\ idle c.
Proof.
  assert (H1 : _check_user_permissions open_config "alice" = true) by reflexivity.
  assert (H2 : lower "Cancel" ∈ ["cancel"; "stop"; "abort"]) by (vm_compute; in_list).
  split; [exact H1|]. split; [exact H2|].
  destruct (cancel_word_resets_context open_config example_clock no_resources
              "alice" "conv1" "Cancel" (world_with "alice:conv1" awaiting_context) H1 H2)
    as (w' & c & Hrun & Hc & Hidle & _).
  exists w', c. split; [exact Hrun|]. split; [exact Hc | exact Hidle].
Defined.

Lemma not_in_three (x a b c : string) :
  x <> a -> x <> b -> x <> c -> x ∉ [a; b; c].
Proof.
  intros Ha Hb Hc H.
  apply elem_of_cons in H as [H|H]; [done|].
  apply elem_of_cons in H as [H|H]; [done|].
  apply elem_of_cons in H as [H|H]; [done|].
  by apply elem_of_nil in H.
Qed.

Lemma listing_word_preempts_collection_witness :
  _check_user_permissions open_config "alice" = true
  /\ (lower "Show-01" ∉ ["cancel"; "stop"; "abort"])
  /\ (lower "Show-01" ∉ ["help"; "what can you do"; "?"])
  /\ any_in ["list"; "show"; "what"; "resources"] (lower "Show-01") = true
  /\ exists reply w' c,
       dispatch_message open_config example_clock no_resources "alice" "conv1" "Show-01"
         (world_with "alice:conv1" collecting_context) = (Ok reply, w')
       /\ list_calls w' = 1
       /\ conversation_contexts w' !! context_key "alice" "conv1" = Some c
       /\ dialogue_fields c = dialogue_fields collecting_context.
Proof.
  assert (H1 : _check_user_permissions open_config "alice" = true) by reflexivity.
  assert (H2 : lower "Show-01" ∉ ["cancel"; "stop"; "abort"])
    by (apply not_in_three; vm_compute; discriminate).
  assert (H3 : lower "Show-01" ∉ ["help"; "what can you do"; "?"])
    by (apply not_in_three; vm_compute; discriminate).
  assert (H4 : any_in ["list"; "show"; "what"; "resources"] (lower "Show-01") = true)
    by (vm_compute; reflexivity).
  split; [exact H1|]. split; [exact H2|]. split; [exact H3|]. split; [exact H4|].
  destruct (listing_word_preempts_collection open_config example_clock no_resources
              "alice" "conv1" "Show-01" (world_with "alice:conv1" collecting_context)
              H1 H2 H3 H4)
    as (reply & w' & c & Hrun & Hlist & _ & Hc & Hfields & _).
  exists reply, w', c. split; [exact Hrun|]. split; [exact Hlist|].
  split; [exact Hc|]. apply Hfields. vm_compute. reflexivity.
Defined.


Lemma answer_is_stored_and_next_question_asked_witness :
  conversation_contexts (world_with "alice:conv1" collecting_context) !! "alice:conv1"
    = Some collecting_context
  /\ pending_questions collecting_context = [q_name; q_location]
  /\ exists c',
       _handle_parameter_collection open_config example_clock "alice:conv1" "web01"
         (world_with "alice:conv1" collecting_context)
         = (Ok (text_message q_location),
            with_contexts (<["alice:conv1" := c']>
                             (conversation_contexts
                                (world_with "alice:conv1" collecting_context)))
                          (world_with "alice:conv1" collecting_context))
       /\ pending_questions c' = [q_location].
Proof.
  assert (H1 : conversation_contexts (world_with "alice:conv1" collecting_context)
                 !! "alice:conv1" = Some collecting_context) by (vm_compute; reflexivity).
  assert (H2 : pending_questions collecting_context = [q_name; q_location])
    by reflexivity.
  split; [exact H1|]. split; [exact H2|].
  destruct (answer_is_stored_and_next_question_asked open_config example_clock
              "alice:conv1" q_name q_location "web01" [] _ _ H1 H2)
    as (c' & Hrun & Hp & _).
  exists c'. split; [exact Hrun | exact Hp].
Defined.

Lemma last_answer_replaces_stored_request_witness :
  conversation_contexts (world_with "alice:conv1" awaiting_context) !! "alice:conv1"
    = Some awaiting_context
  /\ pending_questions awaiting_context = [q_location]
  /\ current_request awaiting_context = Some example_request
  /\ (q_location ∈ extractor_questions)
  /\ (forall k, is_Some (collected_parameters awaiting_context !! k) ->
                k ∈ extractor_questions)
  /\ exists new w' c',
       _handle_parameter_collection open_config example_clock "alice:conv1" "West US"
         (world_with "alice:conv1" awaiting_context)
         = (Ok (mkBotMessage (generate_response new "confirm") (Some yes_no_actions)), w')
       /\ conversation_contexts w' !! "alice:conv1" = Some c'
       /\ current_request c' = Some new
       /\ name new = "unnamed-resource".
Proof.
  assert (H1 : conversation_contexts (world_with "alice:conv1" awaiting_context)
                 !! "alice:conv1" = Some awaiting_context) by (vm_compute; reflexivity).
  assert (H2 : pending_questions awaiting_context = [q_location]) by reflexivity.
  assert (H3 : current_request awaiting_context = Some example_request) by reflexivity.
  assert (H4 : q_location ∈ extractor_questions) by (unfold extractor_questions; in_list).
  assert (H5 : forall k, is_Some (collected_parameters awaiting_context !! k) ->
                         k ∈ extractor_questions).
  { intros k [v Hk]. cbn [collected_parameters awaiting_context] in Hk.
    apply lookup_singleton_Some in Hk as [<- _]. unfold extractor_questions. in_list. }
  split; [exact H1|]. split; [exact H2|]. split; [exact H3|]. split; [exact H4|].
  split; [exact H5|].
  destruct (last_answer_replaces_stored_request open_config example_clock
              "alice:conv1" q_location "West US" _ _ _ H1 H2 H3 H4 H5)
    as (new & w' & c' & Hrun & Hc & Hreq & _ & _ & _ & Hname & _).
  exists new, w', c'. by split_and!.
Defined.

Lemma resource_group_failure_stops_provisioning_witness :
  supported (resource_type example_request) = true
  /\ sdk_all_fail []
       (AzureClient.ResourceGroupsCreateOrUpdate
          (AzureClient.or_default (resource_group example_request)
                                  "azure-provisioning-rg")
          (AzureClient.or_default (location example_request) "East US"))
     = inl "AuthorizationFailed"
  /\ exists response times,
       AzureClient.provision_resource "azure-provisioning-rg" "East US"
         ResourceType_value sdk_all_fail example_uuid example_clock example_request []
         = ((response, times),
            [AzureClient.ResourceGroupsCreateOrUpdate "azure-provisioning-rg" "East Us"])
       /\ status response = FAILED
       /\ message response = "Failed to create resource group".
Proof.
  assert (H1 : supported (resource_type example_request) = true) by reflexivity.
  assert (H2 : sdk_all_fail []
                 (AzureClient.ResourceGroupsCreateOrUpdate
                    (AzureClient.or_default (resource_group example_request)
                                            "azure-provisioning-rg")
                    (AzureClient.or_default (location example_request) "East US"))
               = inl "AuthorizationFailed") by reflexivity.
  split; [exact H1|]. split; [exact H2|].
  destruct (resource_group_failure_stops_provisioning "azure-provisioning-rg" "East US"
              ResourceType_value sdk_all_fail example_uuid example_clock
              example_request [] "AuthorizationFailed" H1 H2)
    as (response & times & Hrun & Hs & Hm & _).
  exists response, times. split; [exact Hrun|]. split; [exact Hs | exact Hm].
Defined.

Lemma web_app_ignores_runtime_witness :
  (forall key, key ∈ ["plan_sku"; "plan_name"; "app_settings"] ->
     (<["runtime" := PRuntime PYTHON]> (<["plan_sku" := PStr "F1"]> ∅)
        : gmap string ParamValue) !! key
     = (<["runtime" := PRuntime RUBY]> (<["plan_sku" := PStr "F1"]> ∅)
          : gmap string ParamValue) !! key)
  /\ AzureClient.provision_web_app "azure-provisioning-rg" "East US" sdk_all_ok
       example_uuid example_clock
       (with_parameters (<["runtime" := PRuntime PYTHON]> (<["plan_sku" := PStr "F1"]> ∅))
                        webapp_request) []
     = AzureClient.provision_web_app "azure-provisioning-rg" "East US" sdk_all_ok
         example_uuid example_clock
         (with_parameters (<["runtime" := PRuntime RUBY]> (<["plan_sku" := PStr "F1"]> ∅))
                          webapp_request) [].
Proof.
  assert (H : forall key, key ∈ ["plan_sku"; "plan_name"; "app_settings"] ->
     (<["runtime" := PRuntime PYTHON]> (<["plan_sku" := PStr "F1"]> ∅)
        : gmap string ParamValue) !! key
     = (<["runtime" := PRuntime RUBY]> (<["plan_sku" := PStr "F1"]> ∅)
          : gmap string ParamValue) !! key).
  { intros key Hkey.
    repeat (apply elem_of_cons in Hkey as [->|Hkey]; [vm_compute; reflexivity|]).
    by apply elem_of_nil in Hkey. }
  split; [exact H|].
  exact (proj1 (web_app_ignores_runtime "azure-provisioning-rg" "East US" sdk_all_ok
                  example_uuid example_clock webapp_request _ _ [] H)).
Defined.

Lemma chat_vm_gets_the_default_password_witness :
  exists request w' params,
    parse_request example_clock
      "Create a Windows VM named web01 in East US, username admin" "alice" empty_world
      = (Ok (Some request, []), w')
    /\ resource_type request = VIRTUAL_MACHINE
    /\ AzureClient.VirtualMachinesCreate "azure-provisioning-rg" "admin" params
         ∈ snd (AzureClient.provision_resource "azure-provisioning-rg"
                  (default_location open_config) ResourceType_value
                  sdk_all_ok example_uuid example_clock request [])
    /\ AzureClient.admin_password params = PStr "Azure123456!".
Proof.
  eexists _, _, _.
  match goal with
  | |- ?P /\ _ => assert (H1 : P) by (vm_compute; reflexivity)
  end.
  split; [exact H1|].
  match goal with
  | |- ?P /\ _ => assert (H2 : P) by reflexivity
  end.
  split; [exact H2|].
  match goal with
  | |- ?P /\ _ => assert (H3 : P) by (vm_compute; in_list)
  end.
  split; [exact H3|].
  exact (proj1 (chat_vm_gets_the_default_password open_config example_clock
                  "azure-provisioning-rg" ResourceType_value (fun _ => sdk_all_ok)
                  (fun _ => example_uuid) (fun _ => example_clock)
                  _ "alice" empty_world _ _ [] 0 _ _ _ H1 H2 H3)).
Defined.

Lemma unsupported_request_fails_after_confirmation_witness :
  conversation_contexts (world_with "alice:conv1" sql_context)
    !! context_key "alice" "conv1" = Some sql_context
  /\ current_request sql_context = Some sql_request
  /\ supported (resource_type sql_request) = false
  /\ exists w' c',
       confirm_and_provision example_clock
         (azure_backend "azure-provisioning-rg" (default_location open_config)
            ResourceType_value (fun _ => sdk_all_ok) (fun _ => example_uuid)
            (fun _ => example_clock))
         "alice" "conv1" true (world_with "alice:conv1" sql_context)
       = (Ok (text_message
                ("âŒ Failed to create resource: Resource type "
                   +:+ ResourceType_value SQL_DATABASE +:+ " not yet implemented")), w')
       /\ conversation_contexts w' !! context_key "alice" "conv1" = Some c'
       /\ idle c'.
Proof.
  assert (H1 : conversation_contexts (world_with "alice:conv1" sql_context)
                 !! context_key "alice" "conv1" = Some sql_context)
    by (vm_compute; reflexivity).
  assert (H2 : current_request sql_context = Some sql_request) by reflexivity.
  assert (H3 : supported (resource_type sql_request) = false) by reflexivity.
  split; [exact H1|]. split; [exact H2|]. split; [exact H3|].
  destruct (unsupported_request_fails_after_confirmation open_config example_clock
              "azure-provisioning-rg" ResourceType_value (fun _ => sdk_all_ok)
              (fun _ => example_uuid) (fun _ => example_clock)
              "alice" "conv1" _ _ _ H1 H2 H3)
    as (w' & c' & Hrun & Hc & Hidle & _).
  exists w', c'. split; [exact Hrun|]. split; [exact Hc | exact Hidle].
Defined.

(** The limit of [int()] on [long_ram_text]: the amount of memory has 4301
    digits, [extract_vm_parameters] and [parse_request] raise. *)
Lemma long_ram_text_raises :
  extract_resource_type long_ram_text = Some VIRTUAL_MACHINE
  /\ ram_amount_too_long long_ram_text = true
  /\ extract_vm_parameters long_ram_text
     = Raise (ValueError
                ("Exceeds the limit (4300 digits) for integer string conversion: "
                   +:+ "value has 4301 digits; "
                   +:+ "use sys.set_int_max_str_digits() to increase the limit"))
  /\ fst (parse_request example_clock long_ram_text "alice" empty_world)
     = Raise (ValueError (int_limit_message
                            (string_of_list_ascii (replicate 4301 "9"%char)))).
Proof. split_and!; vm_compute; reflexivity. Qed.

End MoreWitnesses.
